(** * cluster-api-provider-cloudstack: the network resolvers of [pkg/cloud]

    A shallow embedding of [pkg/cloud/network.go].

    The CloudStack API client ([c.cs], the go-cloudstack service interfaces
    that the unit tests replace by gomock doubles) is a record of response
    functions.  A Go method with a pointer receiver on the cluster object
    becomes a computation in a small monad that threads the cluster object
    and the list of remote calls issued so far, and that can panic where Go
    dereferences a nil pointer or indexes past the end of a slice. *)

From Stdlib Require Import String Ascii List ZArith Lia Bool.
From Stdlib Require Import DecimalString.
Import ListNotations.

Local Open Scope string_scope.
Local Open Scope Z_scope.

(* ================================================================== *)
(** * Strings: [strings.Contains], [strconv.Itoa] *)
(* ================================================================== *)

Module Strings.

(** [strings.HasPrefix(s, prefix)]. *)
Fixpoint HasPrefix (s prefix : string) {struct prefix} : bool :=
  match prefix, s with
  | EmptyString, _ => true
  | String a p, String b s' => Ascii.eqb a b && HasPrefix s' p
  | String _ _, EmptyString => false
  end.

(** [strings.Contains(s, substr)]: [substr] occurs at some offset of [s]. *)
Fixpoint Contains (s substr : string) : bool :=
  HasPrefix s substr ||
  match s with
  | EmptyString => false
  | String _ s' => Contains s' substr
  end.

(** [strconv.Itoa(i)]: the decimal text of [i], with a leading minus sign
    for negative numbers. *)
Definition Itoa (i : Z) : string := NilZero.string_of_int (Z.to_int i).

(** Go's [a == b] on strings. *)
Definition eqs (a b : string) : bool := String.eqb a b.

End Strings.
Import Strings.

(* ================================================================== *)
(** * Go error values *)
(* ================================================================== *)

Module Errors.

(** The error values that [network.go] builds or passes on:
    - [errorString msg]: [errors.New(msg)], [errors.Errorf(...)] and any
      error of the remote client, seen through its text;
    - [withMessage cause msg]: [errors.Wrapf(cause, ...)] of pkg/errors;
    - [multiError errs]: the [*multierror.Error] of hashicorp/go-multierror. *)
#[warnings="-register-all"]
Inductive error : Type :=
| errorString (msg : string)
| withMessage (cause : error) (msg : string)
| multiError (errs : list error).

Definition nl : string := String (ascii_of_nat 10) EmptyString.
Definition tab : string := String (ascii_of_nat 9) EmptyString.

(** [strings.Join(elems, sep)]. *)
Fixpoint Join (elems : list string) (sep : string) : string :=
  match elems with
  | [] => ""
  | [e] => e
  | e :: rest => e ++ sep ++ Join rest sep
  end.

(** [multierror.ListFormatFunc], the default format of a [*multierror.Error]. *)
Definition ListFormatFunc (es : list string) : string :=
  match es with
  | [e] => "1 error occurred:" ++ nl ++ tab ++ "* " ++ e ++ nl ++ nl
  | _ =>
      Itoa (Z.of_nat (length es)) ++ " errors occurred:" ++ nl ++ tab
      ++ Join (map (fun e => "* " ++ e) es) (nl ++ tab) ++ nl ++ nl
  end.

(** The [Error()] method. *)
Fixpoint Error (e : error) : string :=
  match e with
  | errorString msg => msg
  | withMessage cause msg => msg ++ ": " ++ Error cause
  | multiError errs => ListFormatFunc (map Error errs)
  end.

(** What [multierror.Append] adds for one argument: the elements of a
    [*multierror.Error] are spliced in, any other error is added whole. *)
Definition flatten (e : error) : list error :=
  match e with
  | multiError errs => errs
  | _ => [e]
  end.

(** [multierror.Append(err, e)] for a non-nil [e]; [err] may be nil. *)
Definition Append (err : option error) (e : error) : error :=
  match err with
  | None => multiError (flatten e)
  | Some (multiError errs) => multiError (errs ++ flatten e)
  | Some other => multiError (other :: flatten e)
  end.

(** [errors.Wrapf(err, format, args...)] for a non-nil [err], the format
    already expanded to [msg]. *)
Definition Wrapf (err : error) (msg : string) : error := withMessage err msg.

(** [errors.Errorf(format, args...)] and [errors.New(msg)]. *)
Definition Errorf (msg : string) : error := errorString msg.

End Errors.
Import Errors.

(* ================================================================== *)
(** * Data model *)
(* ================================================================== *)

(** ** The cluster object *)

(** Modelled from the spec: the declaration of [infrav1.CloudStackCluster]
    is not among the files at hand.  The records below hold the fields that
    [network.go] reads and writes, under the names it uses: the desired
    network name-or-ID, the account scoping and the control-plane endpoint
    (host, port) of the specification; the zone, domain, network, public-IP
    and load-balancer-rule identities and the network type of the status. *)

Record APIEndpoint := mkAPIEndpoint {
  Host : string;
  Port : Z                       (* int32 *)
}.

Record CloudStackClusterSpec := mkSpec {
  Zone : string;
  Network : string;
  Account : string;
  ControlPlaneEndpoint : APIEndpoint
}.

Record CloudStackClusterStatus := mkStatus {
  ZoneID : string;
  DomainID : string;
  NetworkID : string;
  NetworkType : string;
  PublicIPID : string;
  LBRuleID : string
}.

Record CloudStackCluster := mkCluster {
  Spec : CloudStackClusterSpec;
  Status : CloudStackClusterStatus
}.

Definition set_NetworkID (v : string) (c : CloudStackCluster) : CloudStackCluster :=
  let st := Status c in
  mkCluster (Spec c)
    (mkStatus (ZoneID st) (DomainID st) v (NetworkType st) (PublicIPID st) (LBRuleID st)).

Definition set_NetworkType (v : string) (c : CloudStackCluster) : CloudStackCluster :=
  let st := Status c in
  mkCluster (Spec c)
    (mkStatus (ZoneID st) (DomainID st) (NetworkID st) v (PublicIPID st) (LBRuleID st)).

Definition set_PublicIPID (v : string) (c : CloudStackCluster) : CloudStackCluster :=
  let st := Status c in
  mkCluster (Spec c)
    (mkStatus (ZoneID st) (DomainID st) (NetworkID st) (NetworkType st) v (LBRuleID st)).

Definition set_LBRuleID (v : string) (c : CloudStackCluster) : CloudStackCluster :=
  let st := Status c in
  mkCluster (Spec c)
    (mkStatus (ZoneID st) (DomainID st) (NetworkID st) (NetworkType st) (PublicIPID st) v).

Definition set_Host (v : string) (c : CloudStackCluster) : CloudStackCluster :=
  let sp := Spec c in
  mkCluster
    (mkSpec (Zone sp) (Network sp) (Account sp)
       (mkAPIEndpoint v (Port (ControlPlaneEndpoint sp))))
    (Status c).

(** ** Values of the CloudStack client library *)

(** [cloudstack.Network]. *)
Record CSNetwork := mkNetwork {
  Network_Id : string;
  Network_Type : string
}.

Record CreateNetworkParams := mkCreateNetworkParams {
  cn_name : string;
  cn_displaytext : string;
  cn_networkofferingid : string;
  cn_zoneid : string;
  cn_account : option string;
  cn_domainid : option string
}.

Record CreateNetworkResponse := mkCreateNetworkResponse {
  CreateNetworkResponse_Id : string;
  CreateNetworkResponse_Type : string
}.

Record ListPublicIpAddressesParams := mkListPublicIpAddressesParams {
  lip_allocatedonly : option bool;
  lip_account : option string;
  lip_domainid : option string;
  lip_ipaddress : option string
}.

Record PublicIpAddress := mkPublicIpAddress {
  PublicIpAddress_Id : string;
  Ipaddress : string;
  Allocated : string;            (* a timestamp, empty when not allocated *)
  Associatednetworkid : string
}.

Record ListPublicIpAddressesResponse := mkListPublicIpAddressesResponse {
  lip_Count : Z;
  PublicIpAddresses : list PublicIpAddress
}.

Record AssociateIpAddressParams := mkAssociateIpAddressParams {
  aip_networkid : option string;
  aip_ipaddress : option string;
  aip_account : option string;
  aip_domainid : option string
}.

Record CreateEgressFirewallRuleParams := mkCreateEgressFirewallRuleParams {
  fw_networkid : string;
  fw_protocol : string
}.

Record ListLoadBalancerRulesParams := mkListLoadBalancerRulesParams {
  llb_publicipid : option string;
  llb_account : option string;
  llb_domainid : option string
}.

Record LoadBalancerRule := mkLoadBalancerRule {
  LoadBalancerRule_Id : string;
  Publicport : string
}.

Record ListLoadBalancerRulesResponse := mkListLoadBalancerRulesResponse {
  llb_Count : Z;
  LoadBalancerRules : list LoadBalancerRule
}.

Record CreateLoadBalancerRuleParams := mkCreateLoadBalancerRuleParams {
  clb_algorithm : string;
  clb_name : string;
  clb_privateport : Z;
  clb_publicport : Z;
  clb_networkid : option string;
  clb_publicipid : option string;
  clb_protocol : option string;
  clb_account : option string;
  clb_domainid : option string
}.

Record CreateLoadBalancerRuleResponse := mkCreateLoadBalancerRuleResponse {
  CreateLoadBalancerRuleResponse_Id : string
}.

Record VirtualMachine := mkVirtualMachine {
  VirtualMachine_Id : string
}.

Record ListLoadBalancerRuleInstancesResponse := mkListLoadBalancerRuleInstancesResponse {
  lbi_Count : Z;
  LoadBalancerRuleInstances : list VirtualMachine
}.

Record AssignToLoadBalancerRuleParams := mkAssignToLoadBalancerRuleParams {
  alb_id : string;
  alb_virtualmachineids : list string
}.

(** ** The remote client [c.cs]

    One response function per remote method that [network.go] calls.  A Go
    result [(resp *T, err error)] is a pair of options ([None] is [nil]); a
    response that the code discards with [_] is left out. *)
Record CloudStackClient := mkClient {
  GetNetworkID : string -> string * Z * option error;
  GetNetworkByID : string -> option CSNetwork * Z * option error;
  GetNetworkOfferingID : string -> string * Z * option error;
  CreateNetwork : CreateNetworkParams -> option CreateNetworkResponse * option error;
  DeleteNetwork : string -> option error;
  ListPublicIpAddresses :
    ListPublicIpAddressesParams -> option ListPublicIpAddressesResponse * option error;
  AssociateIpAddress : AssociateIpAddressParams -> option error;
  CreateEgressFirewallRule : CreateEgressFirewallRuleParams -> option error;
  ListLoadBalancerRules :
    ListLoadBalancerRulesParams -> option ListLoadBalancerRulesResponse * option error;
  CreateLoadBalancerRule :
    CreateLoadBalancerRuleParams -> option CreateLoadBalancerRuleResponse * option error;
  ListLoadBalancerRuleInstances :
    string -> option ListLoadBalancerRuleInstancesResponse * option error;
  AssignToLoadBalancerRule : AssignToLoadBalancerRuleParams -> option error
}.

(** The remote calls, as a test double would record them. *)
Inductive Call : Type :=
| CallGetNetworkID (name : string)
| CallGetNetworkByID (id : string)
| CallGetNetworkOfferingID (name : string)
| CallCreateNetwork (p : CreateNetworkParams)
| CallDeleteNetwork (id : string)
| CallListPublicIpAddresses (p : ListPublicIpAddressesParams)
| CallAssociateIpAddress (p : AssociateIpAddressParams)
| CallCreateEgressFirewallRule (p : CreateEgressFirewallRuleParams)
| CallListLoadBalancerRules (p : ListLoadBalancerRulesParams)
| CallCreateLoadBalancerRule (p : CreateLoadBalancerRuleParams)
| CallListLoadBalancerRuleInstances (id : string)
| CallAssignToLoadBalancerRule (p : AssignToLoadBalancerRuleParams).

Definition isCreateNetwork (c : Call) : bool :=
  match c with CallCreateNetwork _ => true | _ => false end.

Definition isAssociateIpAddress (c : Call) : bool :=
  match c with CallAssociateIpAddress _ => true | _ => false end.

Definition isAssignToLoadBalancerRule (c : Call) : bool :=
  match c with CallAssignToLoadBalancerRule _ => true | _ => false end.

(** How many of the recorded calls satisfy [f]. *)
Definition times (f : Call -> bool) (l : list Call) : nat := length (filter f l).

(* ================================================================== *)
(** * The monad of a method on [*CloudStackCluster] *)
(* ================================================================== *)

(** What a method sees and leaves behind: the cluster object behind the
    pointer and the remote calls issued so far, oldest first. *)
Record World := mkWorld {
  csCluster : CloudStackCluster;
  calls : list Call
}.

(** A Go function returns its results or panics. *)
Inductive result (A : Type) : Type :=
| Returns (a : A)
| Panics.
Arguments Returns {A} a.
Arguments Panics {A}.

Definition M (A : Type) : Type := World -> result A * World.

Definition ret {A} (a : A) : M A := fun w => (Returns a, w).

Definition bind {A B} (m : M A) (k : A -> M B) : M B :=
  fun w =>
    match m w with
    | (Returns a, w') => k a w'
    | (Panics, w') => (Panics, w')
    end.

Declare Scope go_scope.
Delimit Scope go_scope with go.
Notation "x <- m ;; k" := (bind m (fun x => k))
  (at level 61, m at next level, right associativity) : go_scope.
Notation "' pat <- m ;; k" := (bind m (fun x => match x with pat => k end))
  (at level 61, pat pattern, m at next level, right associativity) : go_scope.
Notation "m ;;; k" := (bind m (fun _ => k))
  (at level 61, right associativity) : go_scope.
Local Open Scope go_scope.

(** Read the cluster object. *)
Definition load : M CloudStackCluster := fun w => (Returns (csCluster w), w).

(** Assign to a field of the cluster object. *)
Definition store (f : CloudStackCluster -> CloudStackCluster) : M unit :=
  fun w => (Returns tt, mkWorld (f (csCluster w)) (calls w)).

(** Issue a remote call whose response is [r]. *)
Definition remote {A} (c : Call) (r : A) : M A :=
  fun w => (Returns r, mkWorld (csCluster w) (calls w ++ [c])).

Definition panic {A} : M A := fun w => (Panics, w).

(** Dereference a pointer. *)
Definition deref {A} (p : option A) : M A :=
  match p with
  | Some a => ret a
  | None => panic
  end.

(** [s[0]] on a slice. *)
Definition first {A} (s : list A) : M A :=
  match s with
  | a :: _ => ret a
  | [] => panic
  end.

(** Run a method on a cluster object with an empty call record. *)
Definition run {A} (m : M A) (c : CloudStackCluster) : result A * World :=
  m (mkWorld c []).

(* ================================================================== *)
(** * [pkg/cloud/network.go] *)
(* ================================================================== *)

Definition NetOffering : string := "DefaultIsolatedNetworkOfferingWithSourceNatService".
Definition K8sDefaultAPIPort : Z := 6443.
Definition NetworkTypeIsolated : string := "Isolated".
Definition NetworkTypeShared : string := "Shared".

(** Modelled from the spec: [setIfNotEmpty] is declared in a file of the
    package that is not at hand; account and domain scoping is optional, so
    the setter is applied only to a non-empty string. *)
Definition setIfNotEmpty {P : Type} (str : string) (setFn : string -> P -> P) (p : P) : P :=
  if eqs str "" then p else setFn str p.

Section Client.

Variable cs : CloudStackClient.

Definition ResolveNetwork : M (option error) :=
  c <- load ;;
  let name := Network (Spec c) in
  '(networkID, count, err) <- remote (CallGetNetworkID name) (GetNetworkID cs name) ;;
  let '(retErr, networkID) :=
    match err with
    | Some e =>
        (Some (Append None (Wrapf e ("Could not get Network ID from " ++ name ++ "."))),
         name)
    | None =>
        if negb (count =? 1)
        then (Some (Append None (Errorf ("Expected 1 Network with name " ++ name
                                          ++ ", but got " ++ Itoa count ++ "."))),
              networkID)
        else (None, networkID)
    end in
  '(networkDetails, count, err) <-
     remote (CallGetNetworkByID networkID) (GetNetworkByID cs networkID) ;;
  match err with
  | Some e =>
      ret (Some (Append retErr (Wrapf e ("Could not get Network by ID " ++ networkID ++ "."))))
  | None =>
      if negb (count =? 1)
      then ret (Some (Append retErr (Errorf ("Expected 1 Network with UUID " ++ networkID
                                              ++ ", but got " ++ Itoa count ++ "."))))
      else
        store (set_NetworkID networkID) ;;;
        d <- deref networkDetails ;;
        store (set_NetworkType (Network_Type d)) ;;;
        ret None
  end.

Definition NewCreateNetworkParams (name displaytext networkofferingid zoneid : string)
  : CreateNetworkParams :=
  mkCreateNetworkParams name displaytext networkofferingid zoneid None None.

Definition cn_SetAccount (v : string) (p : CreateNetworkParams) : CreateNetworkParams :=
  mkCreateNetworkParams (cn_name p) (cn_displaytext p) (cn_networkofferingid p)
    (cn_zoneid p) (Some v) (cn_domainid p).

Definition cn_SetDomainid (v : string) (p : CreateNetworkParams) : CreateNetworkParams :=
  mkCreateNetworkParams (cn_name p) (cn_displaytext p) (cn_networkofferingid p)
    (cn_zoneid p) (cn_account p) (Some v).

Definition GetOrCreateNetwork : M (option error) :=
  retErr <- ResolveNetwork ;;
  match retErr with
  | None => ret None                                     (* Found network. *)
  | Some e =>
      if negb (Contains (Error e) "No match found")
      then ret (Some e)                                  (* Some other error. *)
      else
        (* Create network since it wasn't found. *)
        '(offeringId, count, retErr) <-
           remote (CallGetNetworkOfferingID NetOffering) (GetNetworkOfferingID cs NetOffering) ;;
        match retErr with
        | Some e' => ret (Some e')
        | None =>
            if negb (count =? 1)
            then ret (Some (errorString "found more than one network offering."))
            else
              c <- load ;;
              let p := NewCreateNetworkParams (Network (Spec c)) (Network (Spec c))
                         offeringId (ZoneID (Status c)) in
              let p := setIfNotEmpty (Account (Spec c)) cn_SetAccount p in
              let p := setIfNotEmpty (DomainID (Status c)) cn_SetDomainid p in
              '(resp, err) <- remote (CallCreateNetwork p) (CreateNetwork cs p) ;;
              match err with
              | Some e' => ret (Some e')
              | None =>
                  r <- deref resp ;;
                  store (set_NetworkID (CreateNetworkResponse_Id r)) ;;;
                  store (set_NetworkType (CreateNetworkResponse_Type r)) ;;;
                  ret None
              end
        end
  end.

Definition NewListPublicIpAddressesParams : ListPublicIpAddressesParams :=
  mkListPublicIpAddressesParams None None None None.

Definition lip_SetAllocatedonly (v : bool) (p : ListPublicIpAddressesParams) :=
  mkListPublicIpAddressesParams (Some v) (lip_account p) (lip_domainid p) (lip_ipaddress p).

Definition lip_SetAccount (v : string) (p : ListPublicIpAddressesParams) :=
  mkListPublicIpAddressesParams (lip_allocatedonly p) (Some v) (lip_domainid p) (lip_ipaddress p).

Definition lip_SetDomainid (v : string) (p : ListPublicIpAddressesParams) :=
  mkListPublicIpAddressesParams (lip_allocatedonly p) (lip_account p) (Some v) (lip_ipaddress p).

Definition lip_SetIpaddress (v : string) (p : ListPublicIpAddressesParams) :=
  mkListPublicIpAddressesParams (lip_allocatedonly p) (lip_account p) (lip_domainid p) (Some v).

(** The parameters [ResolvePublicIPDetails] lists public addresses with. *)
Definition publicIpParams (c : CloudStackCluster) : ListPublicIpAddressesParams :=
  let p := NewListPublicIpAddressesParams in
  let p := lip_SetAllocatedonly false p in
  let p := setIfNotEmpty (Account (Spec c)) lip_SetAccount p in
  let p := setIfNotEmpty (DomainID (Status c)) lip_SetDomainid p in
  let ip := Host (ControlPlaneEndpoint (Spec c)) in
  if negb (eqs ip "") then lip_SetIpaddress ip p else p.

Definition ResolvePublicIPDetails : M (option PublicIpAddress * option error) :=
  c <- load ;;
  let p := publicIpParams c in
  '(publicAddresses, err) <- remote (CallListPublicIpAddresses p) (ListPublicIpAddresses cs p) ;;
  match err with
  | Some e => ret (None, Some e)
  | None =>
      r <- deref publicAddresses ;;
      if lip_Count r >? 0
      then a <- first (PublicIpAddresses r) ;; ret (Some a, None)
      else ret (None, Some (errorString "no public addresses found"))
  end.

Definition NewAssociateIpAddressParams : AssociateIpAddressParams :=
  mkAssociateIpAddressParams None None None None.

Definition aip_SetNetworkid (v : string) (p : AssociateIpAddressParams) :=
  mkAssociateIpAddressParams (Some v) (aip_ipaddress p) (aip_account p) (aip_domainid p).

Definition aip_SetIpaddress (v : string) (p : AssociateIpAddressParams) :=
  mkAssociateIpAddressParams (aip_networkid p) (Some v) (aip_account p) (aip_domainid p).

Definition aip_SetAccount (v : string) (p : AssociateIpAddressParams) :=
  mkAssociateIpAddressParams (aip_networkid p) (aip_ipaddress p) (Some v) (aip_domainid p).

Definition aip_SetDomainid (v : string) (p : AssociateIpAddressParams) :=
  mkAssociateIpAddressParams (aip_networkid p) (aip_ipaddress p) (aip_account p) (Some v).

(** The parameters of the associate call, read from the cluster object. *)
Definition associateParams (c : CloudStackCluster) : AssociateIpAddressParams :=
  let p := NewAssociateIpAddressParams in
  let p := aip_SetNetworkid (NetworkID (Status c)) p in
  let p := aip_SetIpaddress (Host (ControlPlaneEndpoint (Spec c))) p in
  let p := setIfNotEmpty (Account (Spec c)) aip_SetAccount p in
  setIfNotEmpty (DomainID (Status c)) aip_SetDomainid p.

(** AssociatePublicIpAddress Gets a PublicIP and associates it. *)
Definition AssociatePublicIpAddress : M (option error) :=
  '(publicAddress, err) <- ResolvePublicIPDetails ;;
  match err with
  | Some e => ret (Some e)
  | None =>
      a <- deref publicAddress ;;
      store (set_Host (Ipaddress a)) ;;;
      store (set_PublicIPID (PublicIpAddress_Id a)) ;;;
      c <- load ;;
      if negb (eqs (Allocated a) "")
         && eqs (Associatednetworkid a) (NetworkID (Status c))
      then ret None      (* Address already allocated to network. *)
      else
        (* Public IP found, but not yet allocated to network. *)
        let p := associateParams c in
        err <- remote (CallAssociateIpAddress p) (AssociateIpAddress cs p) ;;
        match err with
        | Some e => ret (Some e)
        | None => ret None
        end
  end.

Definition NewCreateEgressFirewallRuleParams (networkid protocol : string) :=
  mkCreateEgressFirewallRuleParams networkid protocol.

Definition OpenFirewallRules : M (option error) :=
  c <- load ;;
  let p := NewCreateEgressFirewallRuleParams (NetworkID (Status c)) "tcp" in
  retErr <- remote (CallCreateEgressFirewallRule p) (CreateEgressFirewallRule cs p) ;;
  match retErr with
  | Some e =>
      if Contains (Error e) "There is already"
      then ret None                     (* Already a firewall rule here. *)
      else ret (Some e)
  | None => ret None
  end.

Definition NewListLoadBalancerRulesParams : ListLoadBalancerRulesParams :=
  mkListLoadBalancerRulesParams None None None.

Definition llb_SetPublicipid (v : string) (p : ListLoadBalancerRulesParams) :=
  mkListLoadBalancerRulesParams (Some v) (llb_account p) (llb_domainid p).

Definition llb_SetAccount (v : string) (p : ListLoadBalancerRulesParams) :=
  mkListLoadBalancerRulesParams (llb_publicipid p) (Some v) (llb_domainid p).

Definition llb_SetDomainid (v : string) (p : ListLoadBalancerRulesParams) :=
  mkListLoadBalancerRulesParams (llb_publicipid p) (llb_account p) (Some v).

(** The parameters [ResolveLoadBalancerRuleDetails] lists rules with. *)
Definition lbRulesParams (c : CloudStackCluster) : ListLoadBalancerRulesParams :=
  let p := NewListLoadBalancerRulesParams in
  let p := llb_SetPublicipid (PublicIPID (Status c)) p in
  let p := setIfNotEmpty (Account (Spec c)) llb_SetAccount p in
  setIfNotEmpty (DomainID (Status c)) llb_SetDomainid p.

(** The [for _, rule := range loadBalancerRules.LoadBalancerRules] loop of
    [ResolveLoadBalancerRuleDetails] and the [return] after it. *)
Fixpoint rangeLoadBalancerRules (rules : list LoadBalancerRule) : M (option error) :=
  match rules with
  | [] => ret (Some (errorString "no load balancer rule found"))
  | rule :: rest =>
      c <- load ;;
      if eqs (Publicport rule) (Itoa (Port (ControlPlaneEndpoint (Spec c))))
      then store (set_LBRuleID (LoadBalancerRule_Id rule)) ;;; ret None
      else rangeLoadBalancerRules rest
  end.

Definition ResolveLoadBalancerRuleDetails : M (option error) :=
  c <- load ;;
  let p := lbRulesParams c in
  '(loadBalancerRules, err) <- remote (CallListLoadBalancerRules p) (ListLoadBalancerRules cs p) ;;
  match err with
  | Some e => ret (Some e)
  | None =>
      r <- deref loadBalancerRules ;;
      rangeLoadBalancerRules (LoadBalancerRules r)
  end.

Definition NewCreateLoadBalancerRuleParams (algorithm name : string) (privateport publicport : Z) :=
  mkCreateLoadBalancerRuleParams algorithm name privateport publicport None None None None None.

Definition clb_SetNetworkid (v : string) (p : CreateLoadBalancerRuleParams) :=
  mkCreateLoadBalancerRuleParams (clb_algorithm p) (clb_name p) (clb_privateport p)
    (clb_publicport p) (Some v) (clb_publicipid p) (clb_protocol p) (clb_account p)
    (clb_domainid p).

Definition clb_SetPublicport (v : Z) (p : CreateLoadBalancerRuleParams) :=
  mkCreateLoadBalancerRuleParams (clb_algorithm p) (clb_name p) (clb_privateport p)
    v (clb_networkid p) (clb_publicipid p) (clb_protocol p) (clb_account p)
    (clb_domainid p).

Definition clb_SetPublicipid (v : string) (p : CreateLoadBalancerRuleParams) :=
  mkCreateLoadBalancerRuleParams (clb_algorithm p) (clb_name p) (clb_privateport p)
    (clb_publicport p) (clb_networkid p) (Some v) (clb_protocol p) (clb_account p)
    (clb_domainid p).

Definition clb_SetProtocol (v : string) (p : CreateLoadBalancerRuleParams) :=
  mkCreateLoadBalancerRuleParams (clb_algorithm p) (clb_name p) (clb_privateport p)
    (clb_publicport p) (clb_networkid p) (clb_publicipid p) (Some v) (clb_account p)
    (clb_domainid p).

Definition clb_SetAccount (v : string) (p : CreateLoadBalancerRuleParams) :=
  mkCreateLoadBalancerRuleParams (clb_algorithm p) (clb_name p) (clb_privateport p)
    (clb_publicport p) (clb_networkid p) (clb_publicipid p) (clb_protocol p) (Some v)
    (clb_domainid p).

Definition clb_SetDomainid (v : string) (p : CreateLoadBalancerRuleParams) :=
  mkCreateLoadBalancerRuleParams (clb_algorithm p) (clb_name p) (clb_privateport p)
    (clb_publicport p) (clb_networkid p) (clb_publicipid p) (clb_protocol p) (clb_account p)
    (Some v).

(** GetOrCreateLoadBalancerRule Create a load balancer rule that can be
    assigned to instances. *)
Definition GetOrCreateLoadBalancerRule : M (option error) :=
  (* Check if rule exists. *)
  err <- ResolveLoadBalancerRuleDetails ;;
  let found :=
    match err with
    | None => true
    | Some e => negb (Contains (Error e) "no load balancer rule found")
    end in
  if found then ret err
  else
    c <- load ;;
    let p := NewCreateLoadBalancerRuleParams "roundrobin" "Kubernetes_API_Server"
               K8sDefaultAPIPort K8sDefaultAPIPort in
    let p := clb_SetNetworkid (NetworkID (Status c)) p in
    let port := Port (ControlPlaneEndpoint (Spec c)) in
    let p := if negb (port =? 0) then clb_SetPublicport port p else p in
    let p := clb_SetPublicipid (PublicIPID (Status c)) p in
    let p := clb_SetProtocol "tcp" p in
    let p := setIfNotEmpty (Account (Spec c)) clb_SetAccount p in
    let p := setIfNotEmpty (DomainID (Status c)) clb_SetDomainid p in
    '(resp, err) <- remote (CallCreateLoadBalancerRule p) (CreateLoadBalancerRule cs p) ;;
    match err with
    | Some e => ret (Some e)
    | None =>
        r <- deref resp ;;
        store (set_LBRuleID (CreateLoadBalancerRuleResponse_Id r)) ;;;
        ret None
    end.

Definition DestroyNetwork : M (option error) :=
  c <- load ;;
  let id := NetworkID (Status c) in
  remote (CallDeleteNetwork id) (DeleteNetwork cs id).

(** Whether the [for _, instance := range ...] loop of
    [AssignVMToLoadBalancerRule] meets [instanceID]. *)
Fixpoint rangeInstances (instances : list VirtualMachine) (instanceID : string) : bool :=
  match instances with
  | [] => false
  | instance :: rest =>
      if eqs (VirtualMachine_Id instance) instanceID then true
      else rangeInstances rest instanceID
  end.

Definition AssignVMToLoadBalancerRule (instanceID : string) : M (option error) :=
  c <- load ;;
  let id := LBRuleID (Status c) in
  (* Check that the instance isn't already in LB rotation. *)
  '(lbRuleInstances, retErr) <-
     remote (CallListLoadBalancerRuleInstances id) (ListLoadBalancerRuleInstances cs id) ;;
  match retErr with
  | Some e => ret (Some e)
  | None =>
      r <- deref lbRuleInstances ;;
      if rangeInstances (LoadBalancerRuleInstances r) instanceID
      then ret None                     (* Already assigned to load balancer.. *)
      else
        (* Assign to Load Balancer. *)
        let p := mkAssignToLoadBalancerRuleParams id [instanceID] in
        remote (CallAssignToLoadBalancerRule p) (AssignToLoadBalancerRule cs p)
  end.

End Client.

(* ================================================================== *)
(** * Properties, tactics and fixtures used by the theorems *)
(* ================================================================== *)

(** Unfold one method of the client down to the responses it consumes. *)
Ltac step_method :=
  repeat (progress (unfold bind, ret, load, store, remote, panic, deref, first, run;
                    cbn beta iota; cbn [fst snd csCluster calls])).

(** A client and a cluster for concrete runs, after the fixtures of
    [network_test.go]. *)
Definition fakeCluster : CloudStackCluster :=
  mkCluster (mkSpec "zone1" "fakeNetName" "" (mkAPIEndpoint "" 6443))
            (mkStatus "" "" "" "" "" "").

Definition quietClient : CloudStackClient :=
  mkClient
    (fun _ => ("", -1, Some (errorString "No match found for blah.")))
    (fun _ => (None, -1, Some (errorString "No match found for blah.")))
    (fun _ => ("someOfferingID", 1, None))
    (fun _ => (Some (mkCreateNetworkResponse "someNetID" "Isolated"), None))
    (fun _ => None)
    (fun _ => (Some (mkListPublicIpAddressesResponse 0 []), None))
    (fun _ => None)
    (fun _ => None)
    (fun _ => (Some (mkListLoadBalancerRulesResponse 0 []), None))
    (fun _ => (Some (mkCreateLoadBalancerRuleResponse "randomID"), None))
    (fun _ => (Some (mkListLoadBalancerRuleInstancesResponse 0 []), None))
    (fun _ => None).

(** [quietClient] with other answers of the network service. *)
Definition withNetwork
    (byName : string -> string * Z * option error)
    (byID : string -> option CSNetwork * Z * option error) : CloudStackClient :=
  mkClient byName byID
    (GetNetworkOfferingID quietClient) (CreateNetwork quietClient)
    (DeleteNetwork quietClient) (ListPublicIpAddresses quietClient)
    (AssociateIpAddress quietClient) (CreateEgressFirewallRule quietClient)
    (ListLoadBalancerRules quietClient) (CreateLoadBalancerRule quietClient)
    (ListLoadBalancerRuleInstances quietClient) (AssignToLoadBalancerRule quietClient).



(** Both lookups of the network service fail. *)
Definition lostClient : CloudStackClient :=
  withNetwork (fun _ => ("", -1, Some (errorString "No match found for blah.")))
              (fun _ => (None, -1, Some (errorString "No such network."))).

(** The name lookup fails; the configured value is the identity of a
    network. *)
Definition byIDClient : CloudStackClient :=
  withNetwork (fun _ => ("", -1, Some (errorString "No match found for blah.")))
              (fun id => if eqs id "fakeNetID"
                         then (Some (mkNetwork "fakeNetID" "Isolated"), 1, None)
                         else (None, 0, Some (errorString "No match found for blah."))).

Definition fakeIDCluster : CloudStackCluster :=
  mkCluster (mkSpec "zone1" "fakeNetID" "" (mkAPIEndpoint "" 6443))
            (mkStatus "" "" "" "" "" "").

(** In the second call the platform reports the network as found. *)
Definition foundClient : CloudStackClient :=
  withNetwork (fun _ => ("someNetID", 1, None))
              (fun _ => (Some (mkNetwork "someNetID" "Isolated"), 1, None)).

(** [quietClient] with other answers of the address service. *)
Definition withAddress
    (list : ListPublicIpAddressesParams -> option ListPublicIpAddressesResponse * option error)
    (associate : AssociateIpAddressParams -> option error) : CloudStackClient :=
  mkClient (GetNetworkID quietClient) (GetNetworkByID quietClient)
    (GetNetworkOfferingID quietClient) (CreateNetwork quietClient)
    (DeleteNetwork quietClient) list associate
    (CreateEgressFirewallRule quietClient)
    (ListLoadBalancerRules quietClient) (CreateLoadBalancerRule quietClient)
    (ListLoadBalancerRuleInstances quietClient) (AssignToLoadBalancerRule quietClient).

Definition freeAddress : PublicIpAddress :=
  mkPublicIpAddress "PublicIPID" "192.168.1.14" "" "".

(** One free public address is listed; the associate call is refused. *)
Definition refusingClient : CloudStackClient :=
  withAddress (fun _ => (Some (mkListPublicIpAddressesResponse 1 [freeAddress]), None))
              (fun _ => Some (errorString "Unable to associate the address.")).

(** An address allocated to the network of the cluster. *)
Definition boundAddress : PublicIpAddress :=
  mkPublicIpAddress "PublicIPID" "192.168.1.14" "2022-01-01T00:00:00+0000" "someNetID".

Definition boundClient : CloudStackClient :=
  withAddress (fun _ => (Some (mkListPublicIpAddressesResponse 1 [boundAddress]), None))
              (fun _ => None).

Definition freeClient : CloudStackClient :=
  withAddress (fun _ => (Some (mkListPublicIpAddressesResponse 1 [freeAddress]), None))
              (fun _ => None).

Definition someNetCluster : CloudStackCluster := set_NetworkID "someNetID" fakeCluster.
Definition otherNetCluster : CloudStackCluster := set_NetworkID "otherNetID" fakeCluster.

(** [s] contains [substr], as a proposition. *)
Definition contains_text (s substr : string) : Prop :=
  exists before after, s = before ++ substr ++ after.

(** [quietClient] with another answer of the firewall service. *)
Definition withFirewall (create : CreateEgressFirewallRuleParams -> option error)
  : CloudStackClient :=
  mkClient (GetNetworkID quietClient) (GetNetworkByID quietClient)
    (GetNetworkOfferingID quietClient) (CreateNetwork quietClient)
    (DeleteNetwork quietClient) (ListPublicIpAddresses quietClient)
    (AssociateIpAddress quietClient) create
    (ListLoadBalancerRules quietClient) (CreateLoadBalancerRule quietClient)
    (ListLoadBalancerRuleInstances quietClient) (AssignToLoadBalancerRule quietClient).

Definition openClient : CloudStackClient :=
  withFirewall (fun _ => Some (errorString "There is already a rule like this.")).

(** [quietClient] with another answer to the listing of rules. *)
Definition withRules
    (list : ListLoadBalancerRulesParams -> option ListLoadBalancerRulesResponse * option error)
  : CloudStackClient :=
  mkClient (GetNetworkID quietClient) (GetNetworkByID quietClient)
    (GetNetworkOfferingID quietClient) (CreateNetwork quietClient)
    (DeleteNetwork quietClient) (ListPublicIpAddresses quietClient)
    (AssociateIpAddress quietClient) (CreateEgressFirewallRule quietClient)
    list (CreateLoadBalancerRule quietClient)
    (ListLoadBalancerRuleInstances quietClient) (AssignToLoadBalancerRule quietClient).


(** [quietClient] with another answer to the listing of a rule's instances. *)
Definition withInstances
    (list : string -> option ListLoadBalancerRuleInstancesResponse * option error)
  : CloudStackClient :=
  mkClient (GetNetworkID quietClient) (GetNetworkByID quietClient)
    (GetNetworkOfferingID quietClient) (CreateNetwork quietClient)
    (DeleteNetwork quietClient) (ListPublicIpAddresses quietClient)
    (AssociateIpAddress quietClient) (CreateEgressFirewallRule quietClient)
    (ListLoadBalancerRules quietClient) (CreateLoadBalancerRule quietClient)
    list (AssignToLoadBalancerRule quietClient).

Definition assignedClient : CloudStackClient :=
  withInstances (fun _ => (Some (mkListLoadBalancerRuleInstancesResponse 2
                                   [mkVirtualMachine "otherInstanceID";
                                    mkVirtualMachine "instanceID"]), None)).

(** Case analysis on the next response or test that a method consumes. *)
Ltac case_response :=
  match goal with
  | |- context [match ?x with _ => _ end] =>
      lazymatch x with
      | context [match _ with _ => _ end] => fail
      | _ => destruct x
      end
  end.

(** Close a goal about a method by case analysis on everything it
    consumes. *)
Ltac by_cases tac :=
  repeat (step_method; try case_response); step_method; tac.

(** The identity that [ResolveNetwork] hands to the lookup by identity: the
    one the lookup by name returned or, when that lookup failed with an
    error, the configured network value. *)
Definition resolvedID (cs : CloudStackClient) (c : CloudStackCluster) : string :=
  match GetNetworkID cs (Network (Spec c)) with
  | (_, _, Some _) => Network (Spec c)
  | (id, _, None) => id
  end.


(** [quietClient] with other answers of the network and network-offering
    services. *)
Definition withNetworkService
    (byName : string -> string * Z * option error)
    (byID : string -> option CSNetwork * Z * option error)
    (offering : string -> string * Z * option error)
    (create : CreateNetworkParams -> option CreateNetworkResponse * option error)
  : CloudStackClient :=
  mkClient byName byID offering create
    (DeleteNetwork quietClient) (ListPublicIpAddresses quietClient)
    (AssociateIpAddress quietClient) (CreateEgressFirewallRule quietClient)
    (ListLoadBalancerRules quietClient) (CreateLoadBalancerRule quietClient)
    (ListLoadBalancerRuleInstances quietClient) (AssignToLoadBalancerRule quietClient).

(** No network is found and the platform has no default offering. *)
Definition noOfferingClient : CloudStackClient :=
  withNetworkService (GetNetworkID quietClient) (GetNetworkByID quietClient)
    (fun _ => ("", 0, None)) (CreateNetwork quietClient).

(** No network is found and the creation is refused. *)
Definition noCreationClient : CloudStackClient :=
  withNetworkService (GetNetworkID quietClient) (GetNetworkByID quietClient)
    (GetNetworkOfferingID quietClient)
    (fun _ => (None, Some (errorString "Unable to create the network."))).

(** The parameters [GetOrCreateNetwork] creates the network with. *)
Definition createNetworkParams (offeringId : string) (c : CloudStackCluster)
  : CreateNetworkParams :=
  let p := NewCreateNetworkParams (Network (Spec c)) (Network (Spec c))
             offeringId (ZoneID (Status c)) in
  let p := setIfNotEmpty (Account (Spec c)) cn_SetAccount p in
  setIfNotEmpty (DomainID (Status c)) cn_SetDomainid p.

(** [Some s] for a non-empty string. *)
Definition nonEmpty (s : string) : option string :=
  if eqs s "" then None else Some s.


(** [c'] differs from [c] at most in the endpoint host and in the public-IP
    identity of the status. *)
Definition keepsButPublicIP (c c' : CloudStackCluster) : Prop :=
  Zone (Spec c') = Zone (Spec c) /\
  Network (Spec c') = Network (Spec c) /\
  Account (Spec c') = Account (Spec c) /\
  Port (ControlPlaneEndpoint (Spec c')) = Port (ControlPlaneEndpoint (Spec c)) /\
  ZoneID (Status c') = ZoneID (Status c) /\
  DomainID (Status c') = DomainID (Status c) /\
  NetworkID (Status c') = NetworkID (Status c) /\
  NetworkType (Status c') = NetworkType (Status c) /\
  LBRuleID (Status c') = LBRuleID (Status c).

(** [c'] differs from [c] at most in the network identity and type of the
    status. *)
Definition keepsButNetwork (c c' : CloudStackCluster) : Prop :=
  Spec c' = Spec c /\
  ZoneID (Status c') = ZoneID (Status c) /\
  DomainID (Status c') = DomainID (Status c) /\
  PublicIPID (Status c') = PublicIPID (Status c) /\
  LBRuleID (Status c') = LBRuleID (Status c).

(** [c'] differs from [c] at most in the load-balancer-rule identity of the
    status. *)
Definition keepsButLBRule (c c' : CloudStackCluster) : Prop :=
  Spec c' = Spec c /\
  ZoneID (Status c') = ZoneID (Status c) /\
  DomainID (Status c') = DomainID (Status c) /\
  NetworkID (Status c') = NetworkID (Status c) /\
  NetworkType (Status c') = NetworkType (Status c) /\
  PublicIPID (Status c') = PublicIPID (Status c).

(** The platform lists more addresses than it counts. *)
Definition miscountingClient : CloudStackClient :=
  withAddress (fun _ => (Some (mkListPublicIpAddressesResponse 0 [freeAddress]), None))
              (fun _ => None).

Definition isCreateLoadBalancerRule (c : Call) : bool :=
  match c with CallCreateLoadBalancerRule _ => true | _ => false end.

(** The parameters [GetOrCreateLoadBalancerRule] creates the rule with. *)
Definition createLBRuleParams (c : CloudStackCluster) : CreateLoadBalancerRuleParams :=
  let p := NewCreateLoadBalancerRuleParams "roundrobin" "Kubernetes_API_Server"
             K8sDefaultAPIPort K8sDefaultAPIPort in
  let p := clb_SetNetworkid (NetworkID (Status c)) p in
  let port := Port (ControlPlaneEndpoint (Spec c)) in
  let p := if negb (port =? 0) then clb_SetPublicport port p else p in
  let p := clb_SetPublicipid (PublicIPID (Status c)) p in
  let p := clb_SetProtocol "tcp" p in
  let p := setIfNotEmpty (Account (Spec c)) clb_SetAccount p in
  setIfNotEmpty (DomainID (Status c)) clb_SetDomainid p.

(** A cluster whose endpoint port is not set. *)
Definition noPortCluster : CloudStackCluster :=
  mkCluster (mkSpec "zone1" "fakeNetName" "" (mkAPIEndpoint "" 0))
            (mkStatus "" "" "someNetID" "Isolated" "PublicIPID" "").

(** [quietClient] with other answers of the load-balancer service. *)
Definition withLoadBalancer
    (list : ListLoadBalancerRulesParams -> option ListLoadBalancerRulesResponse * option error)
    (create : CreateLoadBalancerRuleParams
              -> option CreateLoadBalancerRuleResponse * option error)
  : CloudStackClient :=
  mkClient (GetNetworkID quietClient) (GetNetworkByID quietClient)
    (GetNetworkOfferingID quietClient) (CreateNetwork quietClient)
    (DeleteNetwork quietClient) (ListPublicIpAddresses quietClient)
    (AssociateIpAddress quietClient) (CreateEgressFirewallRule quietClient)
    list create
    (ListLoadBalancerRuleInstances quietClient) (AssignToLoadBalancerRule quietClient).

(** The platform lists the rule that was created for the default port. *)
Definition defaultRuleClient : CloudStackClient :=
  withLoadBalancer
    (fun _ => (Some (mkListLoadBalancerRulesResponse 1
                       [mkLoadBalancerRule "randomID" "6443"]), None))
    (fun _ => (Some (mkCreateLoadBalancerRuleResponse "anotherID"), None)).

(** The listing of the rules fails. *)
Definition noListingClient : CloudStackClient :=
  withLoadBalancer (fun _ => (None, Some (errorString "Unable to list the rules.")))
                   (CreateLoadBalancerRule quietClient).

(** [quietClient] with other answers to the listing of a rule's instances
    and to the assignment. *)
Definition withAssignment
    (list : string -> option ListLoadBalancerRuleInstancesResponse * option error)
    (assign : AssignToLoadBalancerRuleParams -> option error) : CloudStackClient :=
  mkClient (GetNetworkID quietClient) (GetNetworkByID quietClient)
    (GetNetworkOfferingID quietClient) (CreateNetwork quietClient)
    (DeleteNetwork quietClient) (ListPublicIpAddresses quietClient)
    (AssociateIpAddress quietClient) (CreateEgressFirewallRule quietClient)
    (ListLoadBalancerRules quietClient) (CreateLoadBalancerRule quietClient)
    list assign.

(** Another instance is in the rotation; the assignment is refused. *)
Definition refusedAssignmentClient : CloudStackClient :=
  withAssignment
    (fun _ => (Some (mkListLoadBalancerRuleInstancesResponse 1
                       [mkVirtualMachine "otherInstanceID"]), None))
    (fun _ => Some (errorString "Unable to assign the instance.")).

Definition lbRuleCluster : CloudStackCluster := set_LBRuleID "lbRuleID" fakeCluster.

(** The listing of the rules fails with the text of the not-found error. *)
Definition misleadingClient : CloudStackClient :=
  withLoadBalancer
    (fun _ => (None, Some (errorString "backend says: no load balancer rule found")))
    (CreateLoadBalancerRule quietClient).

(** The name lookup counts two networks; the lookup of the identity it
    hands back finds none. *)
Definition ambiguousGoneClient : CloudStackClient :=
  withNetwork (fun _ => ("fakeNetID", 2, None))
              (fun _ => (None, 0, Some (errorString "No match found for fakeNetID."))).

(* ================================================================== *)
(** * Facts about strings and errors *)
(* ================================================================== *)

Lemma HasPrefix_spec s p :
HasPrefix s p = true <-> exists b, s = p ++ b.
Proof.
revert s. induction p as [|a p IH]; intros s; simpl.
- split; [intros _; now exists s | reflexivity].
- destruct s as [|c s]; simpl.
  + split; [discriminate | intros [b Hb]; discriminate].
  + rewrite andb_true_iff, Ascii.eqb_eq, IH. split.
    * intros [-> [b ->]]. now exists b.
    * intros [b Hb]. injection Hb as -> ->. split; [reflexivity | now exists b].
Qed.

Lemma Contains_spec s sub :
Contains s sub = true <-> exists a b, s = a ++ sub ++ b.
Proof.
induction s as [|c s IH]; simpl.
- rewrite orb_false_r, HasPrefix_spec. split.
  + intros [b Hb]. now exists "", b.
  + intros [a [b Hab]]. destruct a; simpl in Hab; [now exists b | discriminate].
- rewrite orb_true_iff, HasPrefix_spec, IH. split.
  + intros [[b Hb] | [a [b Hab]]].
    * now exists "", b.
    * exists (String c a), b. simpl. now rewrite Hab.
  + intros [a [b Hab]]. destruct a as [|d a]; simpl in Hab.
    * left. now exists b.
    * right. injection Hab as _ ->. now exists a, b.
Qed.

Lemma eqs_spec a b : eqs a b = true <-> a = b.
Proof. apply String.eqb_eq. Qed.

Example Itoa_6443 : Itoa 6443 = "6443".
Proof. reflexivity. Qed.

Example Itoa_0 : Itoa 0 = "0".
Proof. reflexivity. Qed.

Example Itoa_neg : Itoa (-1) = "-1".
Proof. reflexivity. Qed.

Example Error_multi :
Error (Append (Some (Append None (Wrapf (errorString "a") "b"))) (Errorf "c"))
= "2 errors occurred:" ++ nl ++ tab ++ "* b: a" ++ nl ++ tab ++ "* c" ++ nl ++ nl.
Proof. reflexivity. Qed.

Lemma append_assoc (a b c : string) : (a ++ b) ++ c = a ++ (b ++ c).
Proof. induction a as [|x a IH]; simpl; [reflexivity | now rewrite IH]. Qed.

(** The text of a compound error of two elements shows the text of what
    its elements wrap. *)
Lemma Error_first_wrapped (e1 x2 : error) (m1 : string) :
  Contains (Error (multiError [withMessage e1 m1; x2])) (Error e1) = true.
Proof.
  apply Contains_spec. cbn [Error map ListFormatFunc length Join].
  exists ("2 errors occurred:" ++ nl ++ tab ++ "* " ++ m1 ++ ": "),
         (nl ++ tab ++ "* " ++ Error x2 ++ nl ++ nl).
  change (Itoa (Z.of_nat 2)) with "2".
  repeat rewrite append_assoc. reflexivity.
Qed.

Lemma Error_second_wrapped (x1 e2 : error) (m2 : string) :
  Contains (Error (multiError [x1; withMessage e2 m2])) (Error e2) = true.
Proof.
  apply Contains_spec. cbn [Error map ListFormatFunc length Join].
  exists ("2 errors occurred:" ++ nl ++ tab ++ "* " ++ Error x1
          ++ nl ++ tab ++ "* " ++ m2 ++ ": "),
         (nl ++ nl).
  change (Itoa (Z.of_nat 2)) with "2".
  repeat rewrite append_assoc. reflexivity.
Qed.

Lemma Error_second_text (x1 : error) (m2 : string) :
  Contains (Error (multiError [x1; errorString m2])) m2 = true.
Proof.
  apply Contains_spec. cbn [Error map ListFormatFunc length Join].
  exists ("2 errors occurred:" ++ nl ++ tab ++ "* " ++ Error x1 ++ nl ++ tab ++ "* "),
         (nl ++ nl).
  change (Itoa (Z.of_nat 2)) with "2".
  repeat rewrite append_assoc. reflexivity.
Qed.

(* ================================================================== *)
(** * [ResolveNetwork] *)
(* ================================================================== *)




(** C9: when the lookup by name returns an error and the lookup by identity
    that follows it fails too (with an error, or with a count other than 1),
    [ResolveNetwork] returns one compound error of exactly two elements: the
    wrapped name-lookup error first, then the error of the lookup by
    identity; its text shows the text of both causes.  Both remote calls
    were issued and the cluster object is unchanged. *)
Theorem C9_both_causes_aggregated
    (cs : CloudStackClient) (w : World) (id : string) (count : Z) (err : error)
    (details : option CSNetwork) (count' : Z) (err' : option error) :
  let name := Network (Spec (csCluster w)) in
  let unexpected :=
    "Expected 1 Network with UUID " ++ name ++ ", but got " ++ Itoa count' ++ "." in
  let compound :=
    multiError
      [ Wrapf err ("Could not get Network ID from " ++ name ++ ".");
        match err' with
        | Some e => Wrapf e ("Could not get Network by ID " ++ name ++ ".")
        | None => Errorf unexpected
        end ] in
  GetNetworkID cs name = (id, count, Some err) ->
  GetNetworkByID cs name = (details, count', err') ->
  err' <> None \/ count' <> 1 ->
  ResolveNetwork cs w
    = (Returns (Some compound),
       mkWorld (csCluster w)
         (calls w ++ [CallGetNetworkID name] ++ [CallGetNetworkByID name])) /\
  Contains (Error compound) (Error err) = true /\
  Contains (Error compound)
    match err' with
    | Some e => Error e
    | None => unexpected
    end = true.
Proof.
  intros name unexpected compound Hname Hid Hfail. subst name unexpected compound.
  split; [|split].
  - unfold ResolveNetwork. step_method. rewrite Hname. step_method. rewrite Hid.
    rewrite <- List.app_assoc.
    destruct err' as [e|]; [reflexivity|].
    destruct Hfail as [H|H]; [congruence|].
    destruct (Z.eqb_spec count' 1) as [E|_]; [contradiction|]. reflexivity.
  - apply Error_first_wrapped.
  - destruct err' as [e|]; [apply Error_second_wrapped | apply Error_second_text].
Qed.

Lemma C9_both_causes_aggregated_witness :
  let compound :=
    multiError
      [ Wrapf (errorString "No match found for blah.")
          "Could not get Network ID from fakeNetName.";
        Wrapf (errorString "No such network.")
          "Could not get Network by ID fakeNetName." ] in
  ResolveNetwork lostClient (mkWorld fakeCluster [])
    = (Returns (Some compound),
       mkWorld fakeCluster
         [CallGetNetworkID "fakeNetName"; CallGetNetworkByID "fakeNetName"]) /\
  Contains (Error compound) "No match found for blah." = true /\
  Contains (Error compound) "No such network." = true.
Proof.
  apply (C9_both_causes_aggregated lostClient (mkWorld fakeCluster [])
           "" (-1) (errorString "No match found for blah.")
           None (-1) (Some (errorString "No such network."))).
  - reflexivity.
  - reflexivity.
  - left. discriminate.
Defined.

(** C10: when the lookup by name fails with an error, [ResolveNetwork] looks
    the configured network value up as an identity; if that lookup returns
    exactly one network, it returns nil and the status holds that value as
    the network identity, with the type of the network found. *)
Theorem C10_fallback_to_identity
    (cs : CloudStackClient) (w : World) (id : string) (count : Z) (err : error)
    (details : CSNetwork) :
  let name := Network (Spec (csCluster w)) in
  GetNetworkID cs name = (id, count, Some err) ->
  GetNetworkByID cs name = (Some details, 1, None) ->
  exists w',
    ResolveNetwork cs w = (Returns None, w') /\
    calls w' = (calls w ++ [CallGetNetworkID name] ++ [CallGetNetworkByID name])%list /\
    NetworkID (Status (csCluster w')) = name /\
    NetworkType (Status (csCluster w')) = Network_Type details /\
    Spec (csCluster w') = Spec (csCluster w).
Proof.
  intros name Hname Hid. subst name.
  unfold ResolveNetwork. step_method. rewrite Hname. step_method. rewrite Hid.
  cbn [Z.eqb Pos.eqb negb]. step_method.
  eexists. split; [reflexivity|]. cbn [csCluster calls].
  rewrite <- List.app_assoc. repeat split.
Qed.

Lemma C10_fallback_to_identity_witness :
  exists w',
    ResolveNetwork byIDClient (mkWorld fakeIDCluster []) = (Returns None, w') /\
    calls w' = [CallGetNetworkID "fakeNetID"; CallGetNetworkByID "fakeNetID"] /\
    NetworkID (Status (csCluster w')) = "fakeNetID" /\
    NetworkType (Status (csCluster w')) = "Isolated" /\
    Spec (csCluster w') = Spec fakeIDCluster.
Proof.
  apply (C10_fallback_to_identity byIDClient (mkWorld fakeIDCluster [])
           "" (-1) (errorString "No match found for blah.")
           (mkNetwork "fakeNetID" "Isolated")).
  - reflexivity.
  - reflexivity.
Defined.

(* ================================================================== *)
(** * [GetOrCreateNetwork] *)
(* ================================================================== *)

(** [ResolveNetwork] writes to the status only. *)
Lemma ResolveNetwork_Spec cs w r w' :
  ResolveNetwork cs w = (r, w') -> Spec (csCluster w') = Spec (csCluster w).
Proof.
  unfold ResolveNetwork. step_method.
  destruct (GetNetworkID cs _) as [[id n] [e|]]; step_method.
  - destruct (GetNetworkByID cs _) as [[d n'] [e'|]]; step_method.
    + intros H; injection H as _ <-; reflexivity.
    + destruct (negb (n' =? 1)); step_method.
      * intros H; injection H as _ <-; reflexivity.
      * destruct d; step_method; intros H; injection H as _ <-; reflexivity.
  - destruct (negb (n =? 1)); step_method;
      destruct (GetNetworkByID cs _) as [[d n'] [e'|]]; step_method;
      try (intros H; injection H as _ <-; reflexivity);
      destruct (negb (n' =? 1)); step_method;
      try (intros H; injection H as _ <-; reflexivity);
      destruct d; step_method; intros H; injection H as _ <-; reflexivity.
Qed.

(** [GetOrCreateNetwork] leaves the specification as it found it. *)
Lemma GetOrCreateNetwork_Spec cs w r w' :
  GetOrCreateNetwork cs w = (r, w') -> Spec (csCluster w') = Spec (csCluster w).
Proof.
  unfold GetOrCreateNetwork. unfold bind at 1.
  destruct (ResolveNetwork cs w) as [[[e|]|] w1] eqn:R;
    apply ResolveNetwork_Spec in R.
  - destruct (negb (Contains (Error e) "No match found")); step_method.
    + intros H; injection H as _ <-; exact R.
    + destruct (GetNetworkOfferingID cs _) as [[o n] [e'|]]; step_method.
      * intros H; injection H as _ <-; exact R.
      * destruct (negb (n =? 1)); step_method.
        -- intros H; injection H as _ <-; exact R.
        -- destruct (CreateNetwork cs _) as [[resp|] [e''|]]; step_method;
             intros H; injection H as _ <-; exact R.
  - step_method. intros H; injection H as _ <-; exact R.
  - intros H; injection H as _ <-; exact R.
Qed.

(** C4: [GetOrCreateNetwork] is called twice on the same cluster object, so
    with the same specification.  If in the second call the platform reports
    the network as found (the lookup by name yields the identity that the
    status holds after the first call, and the lookup by that identity
    yields exactly one network), the second call returns nil, issues the two
    lookups and no create-network call, and leaves the network identity in
    the status unchanged. *)
Theorem C4_second_call_does_not_create
    (cs1 cs2 : CloudStackClient) (c : CloudStackCluster)
    (r1 : result (option error)) (w1 : World) (details : CSNetwork) :
  run (GetOrCreateNetwork cs1) c = (r1, w1) ->
  GetNetworkID cs2 (Network (Spec c)) = (NetworkID (Status (csCluster w1)), 1, None) ->
  GetNetworkByID cs2 (NetworkID (Status (csCluster w1))) = (Some details, 1, None) ->
  exists w2,
    GetOrCreateNetwork cs2 w1 = (Returns None, w2) /\
    calls w2 = (calls w1 ++ [CallGetNetworkID (Network (Spec c));
                             CallGetNetworkByID (NetworkID (Status (csCluster w1)))])%list /\
    times isCreateNetwork (calls w2) = times isCreateNetwork (calls w1) /\
    NetworkID (Status (csCluster w2)) = NetworkID (Status (csCluster w1)) /\
    Spec (csCluster w2) = Spec c.
Proof.
  intros Hfirst Hname Hid.
  assert (HS : Spec (csCluster w1) = Spec c)
    by (apply GetOrCreateNetwork_Spec in Hfirst; exact Hfirst).
  unfold GetOrCreateNetwork, ResolveNetwork. step_method.
  rewrite HS, Hname. cbn [Z.eqb Pos.eqb negb]. step_method. rewrite Hid.
  cbn [Z.eqb Pos.eqb negb]. step_method.
  eexists. split; [reflexivity|]. cbn [csCluster calls].
  rewrite <- List.app_assoc. repeat split; try exact HS.
  unfold times. rewrite List.filter_app. cbn [filter isCreateNetwork app].
  now rewrite List.app_nil_r.
Qed.

Lemma C4_second_call_does_not_create_witness :
  exists w2,
    GetOrCreateNetwork foundClient (snd (run (GetOrCreateNetwork quietClient) fakeCluster))
      = (Returns None, w2) /\
    calls w2 = (calls (snd (run (GetOrCreateNetwork quietClient) fakeCluster))
                ++ [CallGetNetworkID "fakeNetName"; CallGetNetworkByID "someNetID"])%list /\
    times isCreateNetwork (calls w2) = 1%nat /\
    NetworkID (Status (csCluster w2)) = "someNetID" /\
    Spec (csCluster w2) = Spec fakeCluster.
Proof.
  apply (C4_second_call_does_not_create quietClient foundClient fakeCluster
           (fst (run (GetOrCreateNetwork quietClient) fakeCluster))
           (snd (run (GetOrCreateNetwork quietClient) fakeCluster))
           (mkNetwork "someNetID" "Isolated")).
  - vm_compute. reflexivity.
  - reflexivity.
  - reflexivity.
Defined.

(** The first call of the run above did create the network. *)
Example quietClient_creates :
  fst (run (GetOrCreateNetwork quietClient) fakeCluster) = Returns None /\
  times isCreateNetwork (calls (snd (run (GetOrCreateNetwork quietClient) fakeCluster))) = 1%nat /\
  NetworkID (Status (csCluster (snd (run (GetOrCreateNetwork quietClient) fakeCluster))))
    = "someNetID".
Proof. repeat split. Qed.

(* ================================================================== *)
(** * [AssociatePublicIpAddress] *)
(* ================================================================== *)

(** [ResolvePublicIPDetails] only reads the cluster object, and issues the
    list call. *)
Lemma ResolvePublicIPDetails_World cs w r w' :
  ResolvePublicIPDetails cs w = (r, w') ->
  w' = mkWorld (csCluster w)
         (calls w ++ [CallListPublicIpAddresses (publicIpParams (csCluster w))]).
Proof.
  unfold ResolvePublicIPDetails. step_method.
  destruct (ListPublicIpAddresses cs _) as [[resp|] [e|]]; step_method;
    try (intros H; injection H as _ <-; reflexivity).
  destruct (lip_Count resp >? 0); step_method;
    try (intros H; injection H as _ <-; reflexivity).
  destruct (PublicIpAddresses resp); step_method;
    intros H; injection H as _ <-; reflexivity.
Qed.

(** C2, as stated, fails: the associate call is refused, and the endpoint
    host and the status [PublicIPID] have both been changed by the
    operation. *)
Lemma C2_counterexample :
  AssociateIpAddress refusingClient
    (associateParams (csCluster (snd (run (AssociatePublicIpAddress refusingClient) fakeCluster))))
    = Some (errorString "Unable to associate the address.") /\
  fst (run (AssociatePublicIpAddress refusingClient) fakeCluster)
    = Returns (Some (errorString "Unable to associate the address.")) /\
  Host (ControlPlaneEndpoint (Spec fakeCluster)) = "" /\
  PublicIPID (Status fakeCluster) = "" /\
  Host (ControlPlaneEndpoint (Spec
    (csCluster (snd (run (AssociatePublicIpAddress refusingClient) fakeCluster)))))
    = "192.168.1.14" /\
  PublicIPID (Status
    (csCluster (snd (run (AssociatePublicIpAddress refusingClient) fakeCluster))))
    = "PublicIPID".
Proof. repeat split. Qed.

(** C2, amended: [AssociatePublicIpAddress] writes the endpoint host and
    the status [PublicIPID] once the lookup of the public address
    ([ResolvePublicIPDetails]) has succeeded, and before the associate call.
    If the lookup fails, its error is returned and the cluster object is
    unchanged.  If it yields an address, both fields hold that address and
    its identity when the operation returns, whether the associate call was
    skipped, succeeded or failed; the associate call, when issued, already
    carries the new host, and its error is what the operation returns. *)
Theorem C2_fields_written_after_lookup
    (cs : CloudStackClient) (w w1 : World)
    (publicAddress : option PublicIpAddress) (err : option error) :
  ResolvePublicIPDetails cs w = (Returns (publicAddress, err), w1) ->
  match err, publicAddress with
  | Some e, _ =>
      AssociatePublicIpAddress cs w = (Returns (Some e), w1) /\
      csCluster w1 = csCluster w
  | None, Some a =>
      let c' := set_PublicIPID (PublicIpAddress_Id a) (set_Host (Ipaddress a) (csCluster w)) in
      Host (ControlPlaneEndpoint (Spec c')) = Ipaddress a /\
      PublicIPID (Status c') = PublicIpAddress_Id a /\
      aip_ipaddress (associateParams c') = Some (Ipaddress a) /\
      (AssociatePublicIpAddress cs w = (Returns None, mkWorld c' (calls w1)) \/
       AssociatePublicIpAddress cs w
         = (Returns (AssociateIpAddress cs (associateParams c')),
            mkWorld c' (calls w1 ++ [CallAssociateIpAddress (associateParams c')])))
  | None, None => AssociatePublicIpAddress cs w = (Panics, w1)
  end.
Proof.
  intros R. pose proof (ResolvePublicIPDetails_World _ _ _ _ R) as ->.
  assert (U : forall k : option PublicIpAddress * option error -> M (option error),
             bind (ResolvePublicIPDetails cs) k w
             = k (publicAddress, err)
                 (mkWorld (csCluster w)
                    (calls w ++ [CallListPublicIpAddresses (publicIpParams (csCluster w))])))
    by (intros k; unfold bind; now rewrite R).
  unfold AssociatePublicIpAddress. rewrite U. clear U R.
  destruct err as [e|]; [step_method; split; reflexivity|].
  destruct publicAddress as [a|]; [|reflexivity].
  step_method. repeat split.
  - unfold associateParams, setIfNotEmpty.
    destruct (eqs (Account _) ""), (eqs (DomainID _) ""); reflexivity.
  - match goal with
    | |- context [if ?b then _ else _] => destruct b
    end.
    + left. reflexivity.
    + right. step_method.
      destruct (AssociateIpAddress cs _); reflexivity.
Qed.

Lemma C2_fields_written_after_lookup_witness :
  let c' := set_PublicIPID "PublicIPID" (set_Host "192.168.1.14" fakeCluster) in
  Host (ControlPlaneEndpoint (Spec c')) = "192.168.1.14" /\
  PublicIPID (Status c') = "PublicIPID" /\
  aip_ipaddress (associateParams c') = Some "192.168.1.14" /\
  (AssociatePublicIpAddress refusingClient (mkWorld fakeCluster [])
     = (Returns None,
        mkWorld c' (calls (snd (run (ResolvePublicIPDetails refusingClient) fakeCluster)))) \/
   AssociatePublicIpAddress refusingClient (mkWorld fakeCluster [])
     = (Returns (AssociateIpAddress refusingClient (associateParams c')),
        mkWorld c' (calls (snd (run (ResolvePublicIPDetails refusingClient) fakeCluster))
                    ++ [CallAssociateIpAddress (associateParams c')]))).
Proof.
  apply (C2_fields_written_after_lookup refusingClient (mkWorld fakeCluster [])
           (snd (run (ResolvePublicIPDetails refusingClient) fakeCluster))
           (Some freeAddress) None).
  reflexivity.
Defined.

(** What [AssociatePublicIpAddress] does with a resolved address. *)
Lemma AssociatePublicIpAddress_resolved cs w w1 a :
  ResolvePublicIPDetails cs w = (Returns (Some a, None), w1) ->
  let c' := set_PublicIPID (PublicIpAddress_Id a) (set_Host (Ipaddress a) (csCluster w)) in
  let listed := (calls w ++ [CallListPublicIpAddresses (publicIpParams (csCluster w))])%list in
  AssociatePublicIpAddress cs w =
    if negb (eqs (Allocated a) "")
       && eqs (Associatednetworkid a) (NetworkID (Status (csCluster w)))
    then (Returns None, mkWorld c' listed)
    else (Returns (AssociateIpAddress cs (associateParams c')),
          mkWorld c' (listed ++ [CallAssociateIpAddress (associateParams c')])).
Proof.
  intros R. pose proof (ResolvePublicIPDetails_World _ _ _ _ R) as ->.
  unfold AssociatePublicIpAddress, bind at 1. rewrite R. step_method.
  change (NetworkID (Status (set_PublicIPID (PublicIpAddress_Id a)
                               (set_Host (Ipaddress a) (csCluster w)))))
    with (NetworkID (Status (csCluster w))).
  destruct (negb (eqs (Allocated a) "")
            && eqs (Associatednetworkid a) (NetworkID (Status (csCluster w))));
    [reflexivity|].
  step_method. destruct (AssociateIpAddress cs _); reflexivity.
Qed.

Lemma times_app f l1 l2 : times f (l1 ++ l2) = (times f l1 + times f l2)%nat.
Proof. unfold times. now rewrite List.filter_app, List.length_app. Qed.

(** C3: for a resolved public address, [AssociatePublicIpAddress] issues
    the associate call exactly once when the allocation timestamp is empty;
    issues none when the timestamp is non-empty and the address is
    associated with the network of the cluster status; and issues it (once)
    when the timestamp is non-empty and the address is associated with
    another network. *)
Theorem C3_associate_call_count
    (cs : CloudStackClient) (w w1 : World) (a : PublicIpAddress) :
  ResolvePublicIPDetails cs w = (Returns (Some a, None), w1) ->
  let issued l := times isAssociateIpAddress l in
  let after := calls (snd (AssociatePublicIpAddress cs w)) in
  let networkID := NetworkID (Status (csCluster w)) in
  (Allocated a = "" -> issued after = S (issued (calls w))) /\
  (Allocated a <> "" -> Associatednetworkid a = networkID ->
   issued after = issued (calls w)) /\
  (Allocated a <> "" -> Associatednetworkid a <> networkID ->
   issued after = S (issued (calls w))).
Proof.
  intros R issued after networkID. subst issued after networkID.
  rewrite (AssociatePublicIpAddress_resolved _ _ _ _ R). unfold eqs.
  destruct (String.eqb_spec (Allocated a) "") as [Ea|Ea];
    destruct (String.eqb_spec (Associatednetworkid a) (NetworkID (Status (csCluster w))))
      as [En|En];
    cbn [negb andb snd calls]; repeat rewrite times_app; unfold times;
    cbn [filter isAssociateIpAddress length];
    repeat split; intros; try congruence; lia.
Qed.

Lemma C3_associate_call_count_witness :
  times isAssociateIpAddress
    (calls (snd (AssociatePublicIpAddress boundClient (mkWorld otherNetCluster []))))
  = 1%nat.
Proof.
  apply (proj2 (proj2 (C3_associate_call_count boundClient (mkWorld otherNetCluster [])
                         (snd (run (ResolvePublicIPDetails boundClient) otherNetCluster))
                         boundAddress eq_refl))).
  - discriminate.
  - discriminate.
Defined.

(** The three cases of C3 on concrete runs. *)
Example associate_free_address :
  calls (snd (run (AssociatePublicIpAddress freeClient) someNetCluster))
  = [CallListPublicIpAddresses (publicIpParams someNetCluster);
     CallAssociateIpAddress
       (mkAssociateIpAddressParams (Some "someNetID") (Some "192.168.1.14") None None)].
Proof. reflexivity. Qed.

Example associate_bound_address_same_network :
  calls (snd (run (AssociatePublicIpAddress boundClient) someNetCluster))
  = [CallListPublicIpAddresses (publicIpParams someNetCluster)].
Proof. reflexivity. Qed.

Example associate_bound_address_other_network :
  calls (snd (run (AssociatePublicIpAddress boundClient) otherNetCluster))
  = [CallListPublicIpAddresses (publicIpParams otherNetCluster);
     CallAssociateIpAddress
       (mkAssociateIpAddressParams (Some "otherNetID") (Some "192.168.1.14") None None)].
Proof. reflexivity. Qed.

(* ================================================================== *)
(** * [OpenFirewallRules] *)
(* ================================================================== *)

(** C5: when the create-egress-rule call fails, [OpenFirewallRules] returns
    nil if the text of the error contains "There is already", and returns
    the very error of the remote call otherwise.  Either way the call was
    issued once, for protocol tcp on the network of the status, and the
    cluster object is unchanged. *)
Theorem C5_already_exists_is_success
    (cs : CloudStackClient) (w : World) (e : error) :
  let p := NewCreateEgressFirewallRuleParams (NetworkID (Status (csCluster w))) "tcp" in
  CreateEgressFirewallRule cs p = Some e ->
  let w' := mkWorld (csCluster w) (calls w ++ [CallCreateEgressFirewallRule p]) in
  (contains_text (Error e) "There is already" ->
   OpenFirewallRules cs w = (Returns None, w')) /\
  (~ contains_text (Error e) "There is already" ->
   OpenFirewallRules cs w = (Returns (Some e), w')).
Proof.
  intros p Hcall w'. subst p w'.
  unfold OpenFirewallRules. step_method. rewrite Hcall. unfold contains_text.
  destruct (Contains (Error e) "There is already") eqn:C; step_method.
  - split; [reflexivity|]. intros N. exfalso. apply N. now apply Contains_spec.
  - split; [|reflexivity]. intros Y. apply Contains_spec in Y. congruence.
Qed.

Lemma C5_already_exists_is_success_witness :
  OpenFirewallRules openClient (mkWorld someNetCluster [])
  = (Returns None,
     mkWorld someNetCluster
       [CallCreateEgressFirewallRule (NewCreateEgressFirewallRuleParams "someNetID" "tcp")]).
Proof.
  apply (proj1 (C5_already_exists_is_success openClient (mkWorld someNetCluster [])
                  (errorString "There is already a rule like this.") eq_refl)).
  exists "", " a rule like this.". reflexivity.
Defined.

(** The two runs of [network_test.go], and a remote error of another text. *)
Example open_firewall_already_open :
  fst (run (OpenFirewallRules openClient) someNetCluster) = Returns None.
Proof. reflexivity. Qed.

Example open_firewall_closed :
  fst (run (OpenFirewallRules quietClient) someNetCluster) = Returns None.
Proof. reflexivity. Qed.

Example open_firewall_other_error :
  fst (run (OpenFirewallRules (withFirewall (fun _ => Some (errorString "Network not found."))))
         someNetCluster)
  = Returns (Some (errorString "Network not found.")).
Proof. reflexivity. Qed.

(* ================================================================== *)
(** * [ResolveLoadBalancerRuleDetails] *)
(* ================================================================== *)


Lemma rangeLoadBalancerRules_none rules w :
  (forall r, In r rules ->
     Publicport r <> Itoa (Port (ControlPlaneEndpoint (Spec (csCluster w))))) ->
  rangeLoadBalancerRules rules w
  = (Returns (Some (errorString "no load balancer rule found")), w).
Proof.
  induction rules as [|r rules IH]; intros Hnone;
    cbn [rangeLoadBalancerRules]; step_method; [reflexivity|].
  unfold eqs. destruct (String.eqb_spec (Publicport r)
              (Itoa (Port (ControlPlaneEndpoint (Spec (csCluster w)))))) as [E|_].
  - exfalso. apply (Hnone r); [now left | exact E].
  - apply IH. intros r' Hr'. apply Hnone. now right.
Qed.



(** The rule of port 6443 is selected whichever comes first, and a lone
    rule of port 7443 is not. *)
Example select_6443_first :
  run (ResolveLoadBalancerRuleDetails
         (withRules (fun _ => (Some (mkListLoadBalancerRulesResponse 2
                                       [mkLoadBalancerRule "lbRuleID" "6443";
                                        mkLoadBalancerRule "otherRuleID" "7443"]), None))))
      fakeCluster
  = (Returns None,
     mkWorld (set_LBRuleID "lbRuleID" fakeCluster)
       [CallListLoadBalancerRules (lbRulesParams fakeCluster)]).
Proof. reflexivity. Qed.

Example select_none_7443 :
  run (ResolveLoadBalancerRuleDetails
         (withRules (fun _ => (Some (mkListLoadBalancerRulesResponse 1
                                       [mkLoadBalancerRule "lbRuleID" "7443"]), None))))
      fakeCluster
  = (Returns (Some (errorString "no load balancer rule found")),
     mkWorld fakeCluster [CallListLoadBalancerRules (lbRulesParams fakeCluster)]).
Proof. reflexivity. Qed.

(* ================================================================== *)
(** * [AssignVMToLoadBalancerRule] *)
(* ================================================================== *)

Lemma rangeInstances_In instances instanceID :
  rangeInstances instances instanceID = true <->
  exists instance, In instance instances /\ VirtualMachine_Id instance = instanceID.
Proof.
  induction instances as [|i instances IH]; cbn [rangeInstances In].
  - split; [discriminate | intros [x [[] _]]].
  - unfold eqs. destruct (String.eqb_spec (VirtualMachine_Id i) instanceID) as [E|N].
    + split; [intros _; exists i; split; [now left | exact E] | reflexivity].
    + rewrite IH. split.
      * intros [x [Hx Ex]]. exists x. split; [now right | exact Ex].
      * intros [x [[<-|Hx] Ex]]; [contradiction | now exists x].
Qed.

(** [AssignVMToLoadBalancerRule] only reads the cluster object. *)
Lemma AssignVMToLoadBalancerRule_csCluster cs instanceID w r w' :
  AssignVMToLoadBalancerRule cs instanceID w = (r, w') -> csCluster w' = csCluster w.
Proof.
  unfold AssignVMToLoadBalancerRule. step_method.
  destruct (ListLoadBalancerRuleInstances cs _) as [[resp|] [e|]]; step_method;
    try (intros H; injection H as _ <-; reflexivity).
  destruct (rangeInstances _ _); step_method; intros H; injection H as _ <-; reflexivity.
Qed.

(** C7: if the listing of the rule's backend instances shows the target
    instance, [AssignVMToLoadBalancerRule] returns nil, issues the listing
    and no assignment call, and leaves the cluster object unchanged.  So
    when it is called twice, whatever client answered the first call and
    whatever its outcome, a second call that finds the instance listed adds
    no assignment call to those of the first. *)
Theorem C7_assigned_instance_not_reassigned
    (cs : CloudStackClient) (w : World) (instanceID : string)
    (resp : ListLoadBalancerRuleInstancesResponse) (instance : VirtualMachine) :
  let rule := LBRuleID (Status (csCluster w)) in
  ListLoadBalancerRuleInstances cs rule = (Some resp, None) ->
  In instance (LoadBalancerRuleInstances resp) ->
  VirtualMachine_Id instance = instanceID ->
  AssignVMToLoadBalancerRule cs instanceID w
    = (Returns None,
       mkWorld (csCluster w) (calls w ++ [CallListLoadBalancerRuleInstances rule])) /\
  forall (cs1 : CloudStackClient) (r1 : result (option error)) (w1 : World),
    AssignVMToLoadBalancerRule cs1 instanceID w = (r1, w1) ->
    exists w2,
      AssignVMToLoadBalancerRule cs instanceID w1 = (Returns None, w2) /\
      calls w2 = (calls w1 ++ [CallListLoadBalancerRuleInstances rule])%list /\
      times isAssignToLoadBalancerRule (calls w2)
        = times isAssignToLoadBalancerRule (calls w1) /\
      csCluster w2 = csCluster w.
Proof.
  intros rule Hlist Hin Hid. subst rule.
  assert (Hfound : rangeInstances (LoadBalancerRuleInstances resp) instanceID = true)
    by (apply rangeInstances_In; now exists instance).
  assert (Hcall : forall w', csCluster w' = csCluster w ->
            AssignVMToLoadBalancerRule cs instanceID w'
            = (Returns None,
               mkWorld (csCluster w)
                 (calls w' ++ [CallListLoadBalancerRuleInstances
                                 (LBRuleID (Status (csCluster w)))]))).
  { intros w' HC. unfold AssignVMToLoadBalancerRule. step_method.
    rewrite HC, Hlist. step_method. now rewrite Hfound. }
  split; [now apply Hcall|].
  intros cs1 r1 w1 Hfirst.
  apply AssignVMToLoadBalancerRule_csCluster in Hfirst.
  eexists. split; [now apply Hcall|]. cbn [csCluster calls].
  repeat split. rewrite times_app. unfold times at 2. cbn. lia.
Qed.

Lemma C7_assigned_instance_not_reassigned_witness :
  exists w2,
    AssignVMToLoadBalancerRule assignedClient "instanceID"
      (snd (run (AssignVMToLoadBalancerRule quietClient "instanceID") fakeCluster))
    = (Returns None, w2) /\
    calls w2 = [CallListLoadBalancerRuleInstances "";
                CallAssignToLoadBalancerRule (mkAssignToLoadBalancerRuleParams "" ["instanceID"]);
                CallListLoadBalancerRuleInstances ""] /\
    times isAssignToLoadBalancerRule (calls w2) = 1%nat /\
    csCluster w2 = fakeCluster.
Proof.
  apply (proj2 (C7_assigned_instance_not_reassigned assignedClient
                  (mkWorld fakeCluster []) "instanceID"
                  (mkListLoadBalancerRuleInstancesResponse 2
                     [mkVirtualMachine "otherInstanceID"; mkVirtualMachine "instanceID"])
                  (mkVirtualMachine "instanceID")
                  eq_refl (or_intror (or_introl eq_refl)) eq_refl)
           quietClient
           (fst (run (AssignVMToLoadBalancerRule quietClient "instanceID") fakeCluster))
           (snd (run (AssignVMToLoadBalancerRule quietClient "instanceID") fakeCluster))).
  reflexivity.
Defined.

(** An instance that is not listed is assigned. *)
Example assign_unlisted_instance :
  run (AssignVMToLoadBalancerRule assignedClient "newInstanceID") fakeCluster
  = (Returns None,
     mkWorld fakeCluster
       [CallListLoadBalancerRuleInstances "";
        CallAssignToLoadBalancerRule (mkAssignToLoadBalancerRuleParams "" ["newInstanceID"])]).
Proof. reflexivity. Qed.

(* ================================================================== *)
(** * More on [ResolveNetwork] and [GetOrCreateNetwork] *)
(* ================================================================== *)



(** [ResolveNetwork] writes to the cluster object only when it returns
    nil. *)
Lemma ResolveNetwork_error_csCluster cs w e w' :
  ResolveNetwork cs w = (Returns (Some e), w') -> csCluster w' = csCluster w.
Proof.
  unfold ResolveNetwork.
  by_cases ltac:(intros H; try discriminate; injection H as _ <-; reflexivity).
Qed.

(** X2: whenever [GetOrCreateNetwork] returns an error, whichever step
    failed (the lookups, the offering lookup or the create call), the
    cluster object is as it was before the call: the status is written only
    on success. *)
Theorem GetOrCreateNetwork_error_csCluster
    (cs : CloudStackClient) (w w' : World) (e : error) :
  GetOrCreateNetwork cs w = (Returns (Some e), w') -> csCluster w' = csCluster w.
Proof.
  unfold GetOrCreateNetwork. unfold bind at 1.
  destruct (ResolveNetwork cs w) as [[[e0|]|] w1] eqn:R.
  - apply ResolveNetwork_error_csCluster in R.
    by_cases ltac:(intros H; try discriminate; injection H as _ <-; exact R).
  - step_method. discriminate.
  - discriminate.
Qed.

Lemma GetOrCreateNetwork_error_csCluster_witness :
  csCluster (snd (run (GetOrCreateNetwork noCreationClient) fakeCluster)) = fakeCluster.
Proof.
  apply (GetOrCreateNetwork_error_csCluster noCreationClient (mkWorld fakeCluster [])
           (snd (run (GetOrCreateNetwork noCreationClient) fakeCluster))
           (errorString "Unable to create the network.")).
  reflexivity.
Defined.

Lemma Contains_trans (s t u : string) :
  Contains s t = true -> Contains t u = true -> Contains s u = true.
Proof.
  rewrite !Contains_spec. intros (a & b & ->) (a' & b' & ->).
  exists (a ++ a'), (b' ++ b). now rewrite !append_assoc.
Qed.




(** [ResolveNetwork] issues the two lookups, whatever they answer. *)
Lemma ResolveNetwork_calls cs w r w' :
  ResolveNetwork cs w = (r, w') ->
  calls w' = (calls w ++ [CallGetNetworkID (Network (Spec (csCluster w)));
                          CallGetNetworkByID (resolvedID cs (csCluster w))])%list.
Proof.
  unfold ResolveNetwork, resolvedID. step_method.
  destruct (GetNetworkID cs _) as [[id n] [e|]]; step_method;
    [|destruct (negb (n =? 1)); step_method];
    (destruct (GetNetworkByID cs _) as [[[d|] n'] [e'|]]; step_method;
     try destruct (negb (n' =? 1)); step_method;
     intros H; injection H as _ <-; cbn [calls]; now rewrite <- List.app_assoc).
Qed.

(** X4: one call of [GetOrCreateNetwork] issues at most one create-network
    call, and it issues one only if [ResolveNetwork] failed with an error
    whose text contains "No match found" and the lookup of the default
    offering returned exactly one offering without error. *)
Theorem GetOrCreateNetwork_creates_only_when_not_found
    (cs : CloudStackClient) (w w' : World) (r : result (option error)) :
  GetOrCreateNetwork cs w = (r, w') ->
  times isCreateNetwork (calls w') = times isCreateNetwork (calls w) \/
  (times isCreateNetwork (calls w') = S (times isCreateNetwork (calls w)) /\
   (exists e w1,
      ResolveNetwork cs w = (Returns (Some e), w1) /\
      Contains (Error e) "No match found" = true) /\
   (exists offeringId, GetNetworkOfferingID cs NetOffering = (offeringId, 1, None))).
Proof.
  unfold GetOrCreateNetwork. unfold bind at 1.
  destruct (ResolveNetwork cs w) as [[[e|]|] w1] eqn:R;
    pose proof (ResolveNetwork_calls _ _ _ _ R) as C.
  - destruct (Contains (Error e) "No match found") eqn:T; cbn [negb]; step_method.
    + destruct (GetNetworkOfferingID cs NetOffering) as [[o n] [e'|]] eqn:O; step_method.
      * intros H; injection H as _ <-. left. cbn [calls]. rewrite C, !times_app.
        unfold times; cbn. lia.
      * destruct (Z.eqb_spec n 1) as [->|]; cbn [negb]; step_method.
        -- intros H. right.
           assert (K : calls w' = (calls w1 ++ [CallGetNetworkOfferingID NetOffering]
                       ++ [CallCreateNetwork (createNetworkParams o (csCluster w1))])%list).
           { unfold createNetworkParams.
             destruct (CreateNetwork cs _) as [[resp|] [e''|]]; step_method;
               injection H as _ <-; cbn [calls]; now rewrite <- List.app_assoc. }
           split; [|split].
           ++ rewrite K, C, !times_app. unfold times; cbn. lia.
           ++ now exists e, w1.
           ++ now exists o.
        -- intros H; injection H as _ <-. left. cbn [calls]. rewrite C, !times_app.
           unfold times; cbn. lia.
    + intros H; injection H as _ <-. left. rewrite C, !times_app. unfold times; cbn. lia.
  - step_method. intros H; injection H as _ <-. left. rewrite C, !times_app.
    unfold times; cbn. lia.
  - intros H; injection H as _ <-. left. rewrite C, !times_app. unfold times; cbn. lia.
Qed.

Lemma GetOrCreateNetwork_creates_only_when_not_found_witness :
  times isCreateNetwork (calls (snd (run (GetOrCreateNetwork quietClient) fakeCluster)))
    = 0%nat \/
  (times isCreateNetwork (calls (snd (run (GetOrCreateNetwork quietClient) fakeCluster)))
     = 1%nat /\
   (exists e w1,
      ResolveNetwork quietClient (mkWorld fakeCluster []) = (Returns (Some e), w1) /\
      Contains (Error e) "No match found" = true) /\
   (exists offeringId,
      GetNetworkOfferingID quietClient NetOffering = (offeringId, 1, None))).
Proof.
  apply (GetOrCreateNetwork_creates_only_when_not_found quietClient
           (mkWorld fakeCluster [])
           (snd (run (GetOrCreateNetwork quietClient) fakeCluster))
           (fst (run (GetOrCreateNetwork quietClient) fakeCluster))).
  reflexivity.
Defined.

(** X5: when the network was not found and the lookup of the default
    offering fails, its error is returned; when it reports a count other
    than 1 (zero offerings included), the error is "found more than one
    network offering.".  Either way no create call is issued and the
    cluster object is unchanged. *)
Theorem GetOrCreateNetwork_offering_not_single
    (cs : CloudStackClient) (w w1 : World) (e : error)
    (offeringId : string) (n : Z) (err : option error) :
  ResolveNetwork cs w = (Returns (Some e), w1) ->
  Contains (Error e) "No match found" = true ->
  GetNetworkOfferingID cs NetOffering = (offeringId, n, err) ->
  err <> None \/ n <> 1 ->
  GetOrCreateNetwork cs w
  = (Returns (Some match err with
                   | Some e' => e'
                   | None => errorString "found more than one network offering."
                   end),
     mkWorld (csCluster w)
       (calls w ++ [CallGetNetworkID (Network (Spec (csCluster w)));
                    CallGetNetworkByID (resolvedID cs (csCluster w));
                    CallGetNetworkOfferingID NetOffering])).
Proof.
  intros R T O Hbad.
  pose proof (ResolveNetwork_calls _ _ _ _ R) as C.
  pose proof (ResolveNetwork_error_csCluster _ _ _ _ R) as K.
  unfold GetOrCreateNetwork. unfold bind at 1. rewrite R, T. cbn [negb].
  step_method. rewrite O, K, C, <- List.app_assoc. cbn [app].
  destruct err as [e'|]; [reflexivity|].
  destruct Hbad as [H|H]; [congruence|].
  destruct (Z.eqb_spec n 1) as [E|_]; [contradiction | reflexivity].
Qed.

Lemma GetOrCreateNetwork_offering_not_single_witness :
  GetOrCreateNetwork noOfferingClient (mkWorld fakeCluster [])
  = (Returns (Some (errorString "found more than one network offering.")),
     mkWorld fakeCluster
       [CallGetNetworkID "fakeNetName"; CallGetNetworkByID "fakeNetName";
        CallGetNetworkOfferingID NetOffering]).
Proof.
  apply (GetOrCreateNetwork_offering_not_single noOfferingClient (mkWorld fakeCluster [])
           (snd (run (ResolveNetwork noOfferingClient) fakeCluster))
           (multiError
              [Wrapf (errorString "No match found for blah.")
                 "Could not get Network ID from fakeNetName.";
               Wrapf (errorString "No match found for blah.")
                 "Could not get Network by ID fakeNetName."])
           "" 0 None).
  - reflexivity.
  - reflexivity.
  - reflexivity.
  - right. lia.
Defined.

(* ================================================================== *)
(** * More on the public address *)
(* ================================================================== *)

(** X6: [ResolvePublicIPDetails] lists the addresses once, allocated or
    not, restricted to the endpoint host exactly when a host is set and to
    account and domain exactly when they are set, and never writes to the
    cluster object.  It passes the error of the listing on; it trusts the
    count of the response: with a count of zero or less the result is the
    error "no public addresses found" even if addresses are listed, and
    with a positive count it is the first address listed. *)
Theorem ResolvePublicIPDetails_result
    (cs : CloudStackClient) (w : World)
    (resp : ListPublicIpAddressesResponse) (e : error) :
  let c := csCluster w in
  let p := publicIpParams c in
  let w' := mkWorld c (calls w ++ [CallListPublicIpAddresses p]) in
  (lip_allocatedonly p = Some false /\
   lip_ipaddress p = nonEmpty (Host (ControlPlaneEndpoint (Spec c))) /\
   lip_account p = nonEmpty (Account (Spec c)) /\
   lip_domainid p = nonEmpty (DomainID (Status c))) /\
  (forall r, ListPublicIpAddresses cs p = (r, Some e) ->
     ResolvePublicIPDetails cs w = (Returns (None, Some e), w')) /\
  (ListPublicIpAddresses cs p = (Some resp, None) -> lip_Count resp <= 0 ->
     ResolvePublicIPDetails cs w
     = (Returns (None, Some (errorString "no public addresses found")), w')) /\
  (forall a rest,
     ListPublicIpAddresses cs p = (Some resp, None) -> lip_Count resp > 0 ->
     PublicIpAddresses resp = a :: rest ->
     ResolvePublicIPDetails cs w = (Returns (Some a, None), w')).
Proof.
  intros c p w'. subst c p w'. split; [|split; [|split]].
  - unfold publicIpParams, setIfNotEmpty, nonEmpty.
    destruct (eqs (Account _) ""), (eqs (DomainID _) ""), (eqs (Host _) "");
      repeat split.
  - intros r L. unfold ResolvePublicIPDetails. step_method. now rewrite L.
  - intros L N. unfold ResolvePublicIPDetails. step_method. rewrite L. step_method.
    destruct (Z.gtb_spec (lip_Count resp) 0); [lia | reflexivity].
  - intros a rest L N S. unfold ResolvePublicIPDetails. step_method. rewrite L.
    step_method. destruct (Z.gtb_spec (lip_Count resp) 0); [|lia].
    rewrite S. reflexivity.
Qed.

Lemma ResolvePublicIPDetails_result_witness :
  ResolvePublicIPDetails miscountingClient (mkWorld fakeCluster [])
  = (Returns (None, Some (errorString "no public addresses found")),
     mkWorld fakeCluster [CallListPublicIpAddresses (publicIpParams fakeCluster)]).
Proof.
  apply (proj1 (proj2 (proj2
           (ResolvePublicIPDetails_result miscountingClient (mkWorld fakeCluster [])
              (mkListPublicIpAddressesResponse 0 [freeAddress])
              (errorString ""))))).
  - reflexivity.
  - cbn. lia.
Defined.

(** X7: [AssociatePublicIpAddress] is called twice.  If the first call
    resolved an address and the second listing shows, first, an address of
    the same identity and IP address that is now allocated to the network
    of the cluster, the second call returns nil, issues the listing only
    (no associate call), and leaves the cluster object as the first call
    left it; its listing is restricted to the IP address that the first
    call recorded as the endpoint host. *)
Theorem AssociatePublicIpAddress_twice
    (cs1 cs2 : CloudStackClient) (w w0 : World) (a a' : PublicIpAddress)
    (resp' : ListPublicIpAddressesResponse) (rest : list PublicIpAddress) :
  ResolvePublicIPDetails cs1 w = (Returns (Some a, None), w0) ->
  let w1 := snd (AssociatePublicIpAddress cs1 w) in
  let p := publicIpParams (csCluster w1) in
  ListPublicIpAddresses cs2 p = (Some resp', None) ->
  lip_Count resp' > 0 ->
  PublicIpAddresses resp' = a' :: rest ->
  PublicIpAddress_Id a' = PublicIpAddress_Id a ->
  Ipaddress a' = Ipaddress a ->
  Allocated a' <> "" ->
  Associatednetworkid a' = NetworkID (Status (csCluster w)) ->
  AssociatePublicIpAddress cs2 w1
    = (Returns None, mkWorld (csCluster w1) (calls w1 ++ [CallListPublicIpAddresses p])) /\
  lip_ipaddress p = nonEmpty (Ipaddress a).
Proof.
  intros R w1 p L N S Hid Hip Hal Hnet.
  assert (K : csCluster w1
              = set_PublicIPID (PublicIpAddress_Id a) (set_Host (Ipaddress a) (csCluster w))).
  { subst w1. rewrite (AssociatePublicIpAddress_resolved _ _ _ _ R).
    destruct (negb _ && _); reflexivity. }
  assert (R2 : ResolvePublicIPDetails cs2 w1
               = (Returns (Some a', None),
                  mkWorld (csCluster w1) (calls w1 ++ [CallListPublicIpAddresses p]))).
  { unfold ResolvePublicIPDetails. step_method. fold p. rewrite L. step_method.
    destruct (Z.gtb_spec (lip_Count resp') 0); [|lia]. now rewrite S. }
  split.
  - rewrite (AssociatePublicIpAddress_resolved _ _ _ _ R2). fold p.
    assert (E1 : eqs (Allocated a') "" = false)
      by (unfold eqs; destruct (String.eqb_spec (Allocated a') ""); congruence).
    assert (E2 : eqs (Associatednetworkid a') (NetworkID (Status (csCluster w1))) = true)
      by (rewrite K; apply eqs_spec; exact Hnet).
    rewrite E1, E2. cbn [negb andb]. rewrite Hid, Hip, K. reflexivity.
  - subst p. rewrite K. unfold publicIpParams, setIfNotEmpty, nonEmpty.
    cbn [set_PublicIPID set_Host Spec ControlPlaneEndpoint Host Status Account DomainID].
    destruct (eqs (Account _) ""), (eqs (DomainID _) ""), (eqs (Ipaddress a) "");
      reflexivity.
Qed.

Lemma AssociatePublicIpAddress_twice_witness :
  let w1 := snd (AssociatePublicIpAddress freeClient (mkWorld someNetCluster [])) in
  let p := publicIpParams (csCluster w1) in
  AssociatePublicIpAddress boundClient w1
    = (Returns None, mkWorld (csCluster w1) (calls w1 ++ [CallListPublicIpAddresses p])) /\
  lip_ipaddress p = Some "192.168.1.14".
Proof.
  apply (AssociatePublicIpAddress_twice freeClient boundClient (mkWorld someNetCluster [])
           (snd (run (ResolvePublicIPDetails freeClient) someNetCluster))
           freeAddress boundAddress
           (mkListPublicIpAddressesResponse 1 [boundAddress]) []).
  - reflexivity.
  - reflexivity.
  - cbn. lia.
  - reflexivity.
  - reflexivity.
  - reflexivity.
  - discriminate.
  - reflexivity.
Defined.

(* ================================================================== *)
(** * More on the load-balancer rule *)
(* ================================================================== *)

(** The loop either records the identity of a listed rule and returns nil,
    or returns the not-found error and leaves the world as it was. *)
Lemma rangeLoadBalancerRules_outcome rules w r w' :
  rangeLoadBalancerRules rules w = (r, w') ->
  (r = Returns None /\
   exists rule, In rule rules /\
     Publicport rule = Itoa (Port (ControlPlaneEndpoint (Spec (csCluster w)))) /\
     w' = mkWorld (set_LBRuleID (LoadBalancerRule_Id rule) (csCluster w)) (calls w)) \/
  (r = Returns (Some (errorString "no load balancer rule found")) /\ w' = w).
Proof.
  induction rules as [|x rules IH]; cbn [rangeLoadBalancerRules]; step_method.
  - intros H; injection H as <- <-. now right.
  - unfold eqs. destruct (String.eqb_spec (Publicport x)
              (Itoa (Port (ControlPlaneEndpoint (Spec (csCluster w)))))) as [E|_].
    + intros H; injection H as <- <-. left. split; [reflexivity|].
      exists x. repeat split; [now left | exact E].
    + intros H. destruct (IH H) as [(-> & rule & Hin & Hp & ->) | (-> & ->)].
      * left. split; [reflexivity|]. exists rule. repeat split; [now right | exact Hp].
      * now right.
Qed.

(** What [GetOrCreateLoadBalancerRule] does when no listed rule has the
    public port of the endpoint. *)
Lemma GetOrCreateLoadBalancerRule_no_match cs w resp :
  let c := csCluster w in
  let p := createLBRuleParams c in
  let issued := (calls w ++ [CallListLoadBalancerRules (lbRulesParams c);
                             CallCreateLoadBalancerRule p])%list in
  ListLoadBalancerRules cs (lbRulesParams c) = (Some resp, None) ->
  (forall r, In r (LoadBalancerRules resp) ->
     Publicport r <> Itoa (Port (ControlPlaneEndpoint (Spec c)))) ->
  GetOrCreateLoadBalancerRule cs w =
    match CreateLoadBalancerRule cs p with
    | (_, Some e) => (Returns (Some e), mkWorld c issued)
    | (Some r, None) =>
        (Returns None,
         mkWorld (set_LBRuleID (CreateLoadBalancerRuleResponse_Id r) c) issued)
    | (None, None) => (Panics, mkWorld c issued)
    end.
Proof.
  intros c p issued L N. subst c p issued.
  unfold GetOrCreateLoadBalancerRule, bind at 1.
  unfold ResolveLoadBalancerRuleDetails. step_method. rewrite L. step_method.
  rewrite rangeLoadBalancerRules_none by exact N.
  cbn [Error]. change (Contains "no load balancer rule found" "no load balancer rule found")
    with true. cbn [negb]. step_method.
  fold (createLBRuleParams (csCluster w)). rewrite <- !List.app_assoc. cbn [app].
  destruct (CreateLoadBalancerRule cs _) as [[r|] [e|]]; reflexivity.
Qed.





(** X10: with an endpoint port of 0 the rule is created with public port
    6443 but looked for under the text "0".  So when the listing shows no
    rule of public port "0" (for instance only the rule created by an
    earlier call), [GetOrCreateLoadBalancerRule] issues a create call, again
    for public port 6443. *)
Theorem GetOrCreateLoadBalancerRule_port_zero_creates_again
    (cs : CloudStackClient) (w : World) (resp : ListLoadBalancerRulesResponse) :
  let c := csCluster w in
  Port (ControlPlaneEndpoint (Spec c)) = 0 ->
  ListLoadBalancerRules cs (lbRulesParams c) = (Some resp, None) ->
  (forall r, In r (LoadBalancerRules resp) -> Publicport r <> "0") ->
  clb_publicport (createLBRuleParams c) = 6443 /\
  calls (snd (GetOrCreateLoadBalancerRule cs w))
  = (calls w ++ [CallListLoadBalancerRules (lbRulesParams c);
                 CallCreateLoadBalancerRule (createLBRuleParams c)])%list /\
  times isCreateLoadBalancerRule (calls (snd (GetOrCreateLoadBalancerRule cs w)))
  = S (times isCreateLoadBalancerRule (calls w)).
Proof.
  intros c Z L N. subst c.
  assert (N' : forall r, In r (LoadBalancerRules resp) ->
            Publicport r <> Itoa (Port (ControlPlaneEndpoint (Spec (csCluster w)))))
    by (rewrite Z; exact N).
  assert (K : calls (snd (GetOrCreateLoadBalancerRule cs w))
              = (calls w ++ [CallListLoadBalancerRules (lbRulesParams (csCluster w));
                             CallCreateLoadBalancerRule
                               (createLBRuleParams (csCluster w))])%list).
  { rewrite (GetOrCreateLoadBalancerRule_no_match _ _ _ L N').
    destruct (CreateLoadBalancerRule cs _) as [[r|] [e|]]; reflexivity. }
  split; [|split].
  - unfold createLBRuleParams, setIfNotEmpty. rewrite Z.
    destruct (eqs (Account _) ""), (eqs (DomainID _) ""); reflexivity.
  - exact K.
  - rewrite K, times_app. unfold times; cbn. lia.
Qed.

Lemma GetOrCreateLoadBalancerRule_port_zero_creates_again_witness :
  clb_publicport (createLBRuleParams noPortCluster) = 6443 /\
  calls (snd (GetOrCreateLoadBalancerRule defaultRuleClient (mkWorld noPortCluster [])))
  = [CallListLoadBalancerRules (lbRulesParams noPortCluster);
     CallCreateLoadBalancerRule (createLBRuleParams noPortCluster)] /\
  times isCreateLoadBalancerRule
    (calls (snd (GetOrCreateLoadBalancerRule defaultRuleClient (mkWorld noPortCluster []))))
  = 1%nat.
Proof.
  apply (GetOrCreateLoadBalancerRule_port_zero_creates_again defaultRuleClient
           (mkWorld noPortCluster [])
           (mkListLoadBalancerRulesResponse 1 [mkLoadBalancerRule "randomID" "6443"])).
  - reflexivity.
  - reflexivity.
  - intros r [<-|[]]. discriminate.
Defined.

(** What [ResolveLoadBalancerRuleDetails] leaves behind: it returns nil
    with only the rule identity of the status changed, or it leaves the
    cluster object as it was. *)
Lemma ResolveLoadBalancerRuleDetails_outcome cs w r w' :
  ResolveLoadBalancerRuleDetails cs w = (r, w') ->
  (r = Returns None /\ exists id, csCluster w' = set_LBRuleID id (csCluster w)) \/
  (r <> Returns None /\ csCluster w' = csCluster w).
Proof.
  unfold ResolveLoadBalancerRuleDetails. step_method.
  destruct (ListLoadBalancerRules cs _) as [[resp|] [e|]]; step_method;
    try (intros H; injection H as <- <-; right; split; [discriminate | reflexivity]).
  intros H. apply rangeLoadBalancerRules_outcome in H.
  destruct H as [(-> & rule & _ & _ & ->) | (-> & ->)].
  - left. split; [reflexivity|]. now exists (LoadBalancerRule_Id rule).
  - right. split; [discriminate | reflexivity].
Qed.

(** X11: whenever [GetOrCreateLoadBalancerRule] returns an error (from the
    listing or from the create call), the cluster object is as it was
    before the call. *)
Theorem GetOrCreateLoadBalancerRule_error_csCluster
    (cs : CloudStackClient) (w w' : World) (e : error) :
  GetOrCreateLoadBalancerRule cs w = (Returns (Some e), w') ->
  csCluster w' = csCluster w.
Proof.
  unfold GetOrCreateLoadBalancerRule. unfold bind at 1.
  destruct (ResolveLoadBalancerRuleDetails cs w) as [[[e0|]|] w1] eqn:R;
    apply ResolveLoadBalancerRuleDetails_outcome in R.
  - destruct R as [(R & _) | (_ & R)]; [discriminate|].
    destruct (negb (Contains (Error e0) "no load balancer rule found")).
    + step_method. intros H; injection H as _ <-. exact R.
    + step_method.
      destruct (CreateLoadBalancerRule cs _) as [[resp|] [e'|]]; step_method;
        intros H; try discriminate; injection H as _ <-; exact R.
  - step_method. discriminate.
  - discriminate.
Qed.

Lemma GetOrCreateLoadBalancerRule_error_csCluster_witness :
  csCluster (snd (run (GetOrCreateLoadBalancerRule noListingClient) fakeCluster))
  = fakeCluster.
Proof.
  apply (GetOrCreateLoadBalancerRule_error_csCluster noListingClient
           (mkWorld fakeCluster [])
           (snd (run (GetOrCreateLoadBalancerRule noListingClient) fakeCluster))
           (errorString "Unable to list the rules.")).
  reflexivity.
Defined.

(* ================================================================== *)
(** * What each operation writes *)
(* ================================================================== *)

Lemma ResolveNetwork_keeps cs w r w' :
  ResolveNetwork cs w = (r, w') -> keepsButNetwork (csCluster w) (csCluster w').
Proof.
  unfold ResolveNetwork, keepsButNetwork.
  by_cases ltac:(intros H; injection H as _ <-; repeat split).
Qed.

(** X12: whatever the platform answers and however the call ends (nil, an
    error or a panic), [GetOrCreateNetwork] changes at most the network
    identity and type of the status, [AssociatePublicIpAddress] at most the
    endpoint host and the public-IP identity, [GetOrCreateLoadBalancerRule]
    at most the rule identity, and [OpenFirewallRules], [DestroyNetwork]
    and [AssignVMToLoadBalancerRule] nothing: [DestroyNetwork] in
    particular leaves the identity of the deleted network in the status. *)
Theorem operations_write_their_own_fields
    (cs : CloudStackClient) (w w' : World) (r : result (option error)) :
  (GetOrCreateNetwork cs w = (r, w') -> keepsButNetwork (csCluster w) (csCluster w')) /\
  (AssociatePublicIpAddress cs w = (r, w') ->
   keepsButPublicIP (csCluster w) (csCluster w')) /\
  (GetOrCreateLoadBalancerRule cs w = (r, w') ->
   keepsButLBRule (csCluster w) (csCluster w')) /\
  (OpenFirewallRules cs w = (r, w') -> csCluster w' = csCluster w) /\
  (DestroyNetwork cs w = (r, w') -> csCluster w' = csCluster w) /\
  (forall instanceID,
     AssignVMToLoadBalancerRule cs instanceID w = (r, w') -> csCluster w' = csCluster w).
Proof.
  split; [|split; [|split; [|split; [|split]]]].
  - unfold GetOrCreateNetwork. unfold bind at 1.
    destruct (ResolveNetwork cs w) as [r0 w1] eqn:R.
    apply ResolveNetwork_keeps in R. destruct R as (R1 & R2 & R3 & R4 & R5).
    unfold keepsButNetwork.
    destruct r0 as [[e|]|];
      by_cases ltac:(intros H; injection H as _ <-; cbn; repeat split; assumption).
  - unfold AssociatePublicIpAddress. unfold bind at 1.
    destruct (ResolvePublicIPDetails cs w) as [r0 w1] eqn:R.
    rewrite (ResolvePublicIPDetails_World _ _ _ _ R). unfold keepsButPublicIP.
    destruct r0 as [[a e]|];
      by_cases ltac:(intros H; injection H as _ <-; cbn; repeat split).
  - unfold GetOrCreateLoadBalancerRule. unfold bind at 1.
    destruct (ResolveLoadBalancerRuleDetails cs w) as [r0 w1] eqn:R.
    apply ResolveLoadBalancerRuleDetails_outcome in R.
    assert (K : keepsButLBRule (csCluster w) (csCluster w1)).
    { destruct R as [(_ & id & ->) | (_ & ->)]; unfold keepsButLBRule;
        cbn; repeat split. }
    clear R. destruct K as (K1 & K2 & K3 & K4 & K5 & K6). unfold keepsButLBRule.
    destruct r0 as [[e|]|];
      by_cases ltac:(intros H; injection H as _ <-; cbn; repeat split; assumption).
  - unfold OpenFirewallRules.
    by_cases ltac:(intros H; injection H as _ <-; reflexivity).
  - unfold DestroyNetwork. step_method. intros H; injection H as _ <-; reflexivity.
  - intros instanceID. apply AssignVMToLoadBalancerRule_csCluster.
Qed.

Lemma operations_write_their_own_fields_witness :
  keepsButPublicIP fakeCluster
    (csCluster (snd (run (AssociatePublicIpAddress refusingClient) fakeCluster))).
Proof.
  apply (proj1 (proj2 (operations_write_their_own_fields refusingClient
                         (mkWorld fakeCluster [])
                         (snd (run (AssociatePublicIpAddress refusingClient) fakeCluster))
                         (fst (run (AssociatePublicIpAddress refusingClient) fakeCluster))))).
  reflexivity.
Defined.

(* ================================================================== *)
(** * More on [AssignVMToLoadBalancerRule] and [OpenFirewallRules] *)
(* ================================================================== *)

(** X13: [AssignVMToLoadBalancerRule] issues the assignment call exactly
    when the listing of the rule's instances succeeded and does not show
    the instance; the call then names the rule of the status and that one
    instance, and its error is what the operation returns.  Otherwise the
    listing is the only call issued. *)
Theorem AssignVMToLoadBalancerRule_assigns_iff
    (cs : CloudStackClient) (w w' : World) (instanceID : string)
    (r : result (option error)) :
  let rule := LBRuleID (Status (csCluster w)) in
  let p := mkAssignToLoadBalancerRuleParams rule [instanceID] in
  let unlisted :=
    exists resp,
      ListLoadBalancerRuleInstances cs rule = (Some resp, None) /\
      forall instance, In instance (LoadBalancerRuleInstances resp) ->
                       VirtualMachine_Id instance <> instanceID in
  AssignVMToLoadBalancerRule cs instanceID w = (r, w') ->
  (unlisted ->
   r = Returns (AssignToLoadBalancerRule cs p) /\
   calls w' = (calls w ++ [CallListLoadBalancerRuleInstances rule;
                           CallAssignToLoadBalancerRule p])%list) /\
  (~ unlisted ->
   calls w' = (calls w ++ [CallListLoadBalancerRuleInstances rule])%list /\
   times isAssignToLoadBalancerRule (calls w')
   = times isAssignToLoadBalancerRule (calls w)).
Proof.
  intros rule p unlisted. subst rule p unlisted.
  unfold AssignVMToLoadBalancerRule. step_method.
  destruct (ListLoadBalancerRuleInstances cs _) as [[resp|] [e|]]; step_method.
  - intros H; injection H as <- <-. split.
    + intros (resp' & L & _). discriminate.
    + intros _. cbn [calls]. split; [reflexivity|].
      rewrite times_app. unfold times at 2. cbn. lia.
  - destruct (rangeInstances (LoadBalancerRuleInstances resp) instanceID) eqn:F;
      step_method; intros H; injection H as <- <-; cbn [calls]; split.
    + intros (resp' & L & N). injection L as <-.
      apply rangeInstances_In in F. destruct F as (i & Hin & Hid).
      exfalso. exact (N i Hin Hid).
    + intros _. split; [reflexivity|].
      rewrite times_app. unfold times at 2. cbn. lia.
    + intros _. split; [reflexivity|]. now rewrite <- List.app_assoc.
    + intros N. exfalso. apply N. exists resp. split; [reflexivity|].
      intros i Hin Hid.
      assert (T : rangeInstances (LoadBalancerRuleInstances resp) instanceID = true)
        by (apply rangeInstances_In; now exists i).
      congruence.
  - intros H; injection H as <- <-. split.
    + intros (resp' & L & _). discriminate.
    + intros _. cbn [calls]. split; [reflexivity|].
      rewrite times_app. unfold times at 2. cbn. lia.
  - intros H; injection H as <- <-. split.
    + intros (resp' & L & _). discriminate.
    + intros _. cbn [calls]. split; [reflexivity|].
      rewrite times_app. unfold times at 2. cbn. lia.
Qed.

Lemma AssignVMToLoadBalancerRule_assigns_iff_witness :
  let p := mkAssignToLoadBalancerRuleParams "lbRuleID" ["instanceID"] in
  fst (run (AssignVMToLoadBalancerRule refusedAssignmentClient "instanceID") lbRuleCluster)
    = Returns (Some (errorString "Unable to assign the instance.")) /\
  calls (snd (run (AssignVMToLoadBalancerRule refusedAssignmentClient "instanceID")
                lbRuleCluster))
    = [CallListLoadBalancerRuleInstances "lbRuleID"; CallAssignToLoadBalancerRule p].
Proof.
  apply (proj1 (AssignVMToLoadBalancerRule_assigns_iff refusedAssignmentClient
                  (mkWorld lbRuleCluster [])
                  (snd (run (AssignVMToLoadBalancerRule refusedAssignmentClient "instanceID")
                          lbRuleCluster))
                  "instanceID"
                  (fst (run (AssignVMToLoadBalancerRule refusedAssignmentClient "instanceID")
                          lbRuleCluster))
                  eq_refl)).
  exists (mkListLoadBalancerRuleInstancesResponse 1 [mkVirtualMachine "otherInstanceID"]).
  split; [reflexivity|]. intros i [<-|[]]. discriminate.
Defined.

(** X14: [OpenFirewallRules] issues one create-egress-rule call, for
    protocol tcp on the network of the status, and returns nil exactly when
    that call succeeded or failed with an error whose text contains
    "There is already". *)
Theorem OpenFirewallRules_nil_iff (cs : CloudStackClient) (w : World) :
  let p := NewCreateEgressFirewallRuleParams (NetworkID (Status (csCluster w))) "tcp" in
  snd (OpenFirewallRules cs w)
    = mkWorld (csCluster w) (calls w ++ [CallCreateEgressFirewallRule p]) /\
  (fst (OpenFirewallRules cs w) = Returns None <->
   CreateEgressFirewallRule cs p = None \/
   exists e, CreateEgressFirewallRule cs p = Some e /\
             contains_text (Error e) "There is already").
Proof.
  intros p. subst p. unfold OpenFirewallRules, contains_text. step_method.
  destruct (CreateEgressFirewallRule cs _) as [e|]; step_method.
  - destruct (Contains (Error e) "There is already") eqn:C; step_method.
    + split; [reflexivity|]. split; [|reflexivity].
      intros _. right. exists e. split; [reflexivity | now apply Contains_spec].
    + split; [reflexivity|]. split; [discriminate|].
      intros [H | (e' & H & T)]; [discriminate|].
      injection H as <-. apply Contains_spec in T. congruence.
  - split; [reflexivity|]. split; [now left | reflexivity].
Qed.

(* ================================================================== *)
(** * When a resource is created *)
(* ================================================================== *)

Lemma ResolveLoadBalancerRuleDetails_calls cs w r w' :
  ResolveLoadBalancerRuleDetails cs w = (r, w') ->
  calls w' = (calls w ++ [CallListLoadBalancerRules (lbRulesParams (csCluster w))])%list.
Proof.
  unfold ResolveLoadBalancerRuleDetails. step_method.
  destruct (ListLoadBalancerRules cs _) as [[resp|] [e|]]; step_method;
    try (intros H; injection H as _ <-; reflexivity).
  intros H. apply rangeLoadBalancerRules_outcome in H.
  destruct H as [(_ & rule & _ & _ & ->) | (_ & ->)]; reflexivity.
Qed.

(** X15: one call of [GetOrCreateLoadBalancerRule] issues at most one
    create call, and it issues one exactly when
    [ResolveLoadBalancerRuleDetails] returned an error whose text contains
    "no load balancer rule found": its own not-found error, or an error of
    the listing that happens to carry that text. *)
Theorem GetOrCreateLoadBalancerRule_creates_iff
    (cs : CloudStackClient) (w w' : World) (r : result (option error)) :
  let notFound :=
    exists e w1,
      ResolveLoadBalancerRuleDetails cs w = (Returns (Some e), w1) /\
      Contains (Error e) "no load balancer rule found" = true in
  let created l := times isCreateLoadBalancerRule l in
  GetOrCreateLoadBalancerRule cs w = (r, w') ->
  (notFound -> created (calls w') = S (created (calls w))) /\
  (~ notFound -> created (calls w') = created (calls w)).
Proof.
  intros notFound created. subst notFound created.
  unfold GetOrCreateLoadBalancerRule. unfold bind at 1.
  destruct (ResolveLoadBalancerRuleDetails cs w) as [[[e|]|] w1] eqn:R;
    pose proof (ResolveLoadBalancerRuleDetails_calls _ _ _ _ R) as C.
  - destruct (Contains (Error e) "no load balancer rule found") eqn:T; cbn [negb].
    + step_method. intros H.
      assert (K : calls w' = (calls w1 ++ [CallCreateLoadBalancerRule
                                             (createLBRuleParams (csCluster w1))])%list).
      { unfold createLBRuleParams.
        destruct (CreateLoadBalancerRule cs _) as [[resp|] [e'|]]; step_method;
          injection H as _ <-; reflexivity. }
      split.
      * intros _. rewrite K, C, !times_app. unfold times; cbn. lia.
      * intros N. exfalso. apply N. now exists e, w1.
    + step_method. intros H; injection H as _ <-. split.
      * intros (e' & w1' & E & T'). injection E as <- <-. congruence.
      * intros _. rewrite C, times_app. unfold times; cbn. lia.
  - step_method. intros H; injection H as _ <-. split.
    + intros (e' & w1' & E & _). discriminate.
    + intros _. rewrite C, times_app. unfold times; cbn. lia.
  - intros H; injection H as _ <-. split.
    + intros (e' & w1' & E & _). discriminate.
    + intros _. rewrite C, times_app. unfold times; cbn. lia.
Qed.

Lemma GetOrCreateLoadBalancerRule_creates_iff_witness :
  times isCreateLoadBalancerRule
    (calls (snd (run (GetOrCreateLoadBalancerRule misleadingClient) fakeCluster)))
  = 1%nat.
Proof.
  apply (proj1 (GetOrCreateLoadBalancerRule_creates_iff misleadingClient
                  (mkWorld fakeCluster [])
                  (snd (run (GetOrCreateLoadBalancerRule misleadingClient) fakeCluster))
                  (fst (run (GetOrCreateLoadBalancerRule misleadingClient) fakeCluster))
                  eq_refl)).
  exists (errorString "backend says: no load balancer rule found"),
         (snd (run (ResolveLoadBalancerRuleDetails misleadingClient) fakeCluster)).
  split; reflexivity.
Defined.

(** X16: an ambiguous name does not keep [GetOrCreateNetwork] from
    creating.  When the lookup by name reports, without error, a count
    other than 1, and the lookup of the identity it handed back fails with
    an error whose text contains "No match found", then, one default
    offering being found, a create call for the configured network name is
    issued. *)
Theorem GetOrCreateNetwork_creates_despite_ambiguity
    (cs : CloudStackClient) (w : World)
    (id : string) (n : Z) (d : option CSNetwork) (n' : Z) (e2 : error)
    (offeringId : string) :
  let c := csCluster w in
  let name := Network (Spec c) in
  let p := createNetworkParams offeringId c in
  GetNetworkID cs name = (id, n, None) ->
  n <> 1 ->
  GetNetworkByID cs id = (d, n', Some e2) ->
  Contains (Error e2) "No match found" = true ->
  GetNetworkOfferingID cs NetOffering = (offeringId, 1, None) ->
  cn_name p = name /\
  calls (snd (GetOrCreateNetwork cs w))
  = (calls w ++ [CallGetNetworkID name; CallGetNetworkByID id;
                 CallGetNetworkOfferingID NetOffering; CallCreateNetwork p])%list.
Proof.
  intros c name p H1 Hn H2 T O. subst c name p. split.
  - unfold createNetworkParams, setIfNotEmpty.
    destruct (eqs (Account _) ""), (eqs (DomainID _) ""); reflexivity.
  - unfold GetOrCreateNetwork, bind at 1. unfold ResolveNetwork. step_method.
    rewrite H1. destruct (Z.eqb_spec n 1) as [E|_]; [contradiction|]. cbn [negb].
    step_method. rewrite H2. step_method.
    match goal with
    | |- context [Contains (Error ?e) "No match found"] =>
        assert (T' : Contains (Error e) "No match found" = true)
          by (eapply Contains_trans; [apply Error_second_wrapped | exact T])
    end.
    rewrite T'. cbn [negb]. step_method. rewrite O.
    cbn [Z.eqb Pos.eqb negb]. step_method.
    fold (createNetworkParams offeringId (csCluster w)).
    destruct (CreateNetwork cs _) as [[resp|] [e|]]; step_method;
      rewrite <- !List.app_assoc; reflexivity.
Qed.

Lemma GetOrCreateNetwork_creates_despite_ambiguity_witness :
  cn_name (createNetworkParams "someOfferingID" fakeCluster) = "fakeNetName" /\
  calls (snd (GetOrCreateNetwork ambiguousGoneClient (mkWorld fakeCluster [])))
  = [CallGetNetworkID "fakeNetName"; CallGetNetworkByID "fakeNetID";
     CallGetNetworkOfferingID NetOffering;
     CallCreateNetwork (createNetworkParams "someOfferingID" fakeCluster)].
Proof.
  apply (GetOrCreateNetwork_creates_despite_ambiguity ambiguousGoneClient
           (mkWorld fakeCluster []) "fakeNetID" 2 None 0
           (errorString "No match found for fakeNetID.") "someOfferingID").
  - reflexivity.
  - lia.
  - reflexivity.
  - reflexivity.
  - reflexivity.
Defined.
